(** * feedback-findr: the [analyze-sentiment] edge function

    A shallow embedding of the request handler of the sentiment endpoint
    (keyword classifier, credit gate, record store) and the properties of
    it that the specification states.

    Conventions of the embedding.
    - A JavaScript string is the sequence of its UTF-16 code units.  The
      texts of this development are those whose code units are all below
      256 (ASCII and Latin-1), held in [string]: one [ascii] per code unit.
    - A JavaScript number that the code only counts with (the two scores,
      [credits_used], [max_credits]) is a [Z]; such integers are exact in
      binary64.  A number that the code computes with fractions (the
      confidence) is a primitive [float], that is IEEE 754 binary64, the
      arithmetic of JavaScript.
    - The record store is external: its contents are a [Store] threaded
      through the handler, and what it may refuse to do on one request is
      an [Env] given to the handler.  One request runs at a time.
    - The function is deployed with its two environment variables set, so
      that [createClient] returns a client.
    - An exception is a completion of its own ([Thrown]), which the [catch]
      clause of the handler turns into the generic answer. *)

From Stdlib Require Import ZArith List Bool Ascii String Lia.
From Stdlib Require Import Floats.PrimFloat Floats.SpecFloat Floats.FloatOps.
From Stdlib Require Import Numbers.Cyclic.Int63.Uint63.
Import ListNotations.

Set Warnings "-inexact-float,-register-all".

Local Open Scope Z_scope.
Local Open Scope string_scope.

(** ** JavaScript built-ins used by the handler *)

Module Js.

(** Code units below 256 that [String.prototype.toLowerCase] changes:
    [A]-[Z] and the Latin-1 capitals U+00C0-U+00DE without the
    multiplication sign U+00D7; each moves up by 32. *)
Definition isUpper (n : N) : bool :=
  ((65 <=? n) && (n <=? 90) ||
   (192 <=? n) && (n <=? 222) && negb (n =? 215))%N.

Definition lowerUnit (c : ascii) : ascii :=
  let n := N_of_ascii c in
  if isUpper n then ascii_of_N (n + 32) else c.

(** [s.toLowerCase()] *)
Fixpoint toLowerCase (s : string) : string :=
  match s with
  | EmptyString => EmptyString
  | String c rest => String (lowerUnit c) (toLowerCase rest)
  end.

(** [s.startsWith(w)]: the code units of [w] are the first ones of [s]. *)
Fixpoint startsWith (s w : string) {struct w} : bool :=
  match w, s with
  | EmptyString, _ => true
  | String _ _, EmptyString => false
  | String a w', String b s' => Ascii.eqb a b && startsWith s' w'
  end.

(** [s.includes(w)]: [w] occurs in [s] at some position. *)
Fixpoint includes (s w : string) : bool :=
  startsWith s w ||
  match s with
  | EmptyString => false
  | String _ rest => includes rest w
  end.

(** The number an integer denotes (the integers here are small and
    non-negative, where the conversion is exact). *)
Definition number (z : Z) : float := PrimFloat.of_uint63 (Uint63.of_Z z).

(** [Math.min(x, y)]: NaN if either is NaN, else the smaller, with
    [-0] below [+0]. *)
Definition Math_min (x y : float) : float :=
  if PrimFloat.is_nan x || PrimFloat.is_nan y then PrimFloat.nan
  else if PrimFloat.ltb x y then x
  else if PrimFloat.ltb y x then y
  else if PrimFloat.get_sign x then x else y.

End Js.

(** ** The classifier, [analyzeSentiment] *)

Inductive Sentiment : Type := positive | negative | neutral.

Record Analysis : Type := mkAnalysis {
  sentiment : Sentiment;
  confidence : float
}.

Definition positiveWords : list string :=
  ["good"; "great"; "excellent"; "amazing"; "love"; "awesome"; "fantastic";
   "wonderful"; "perfect"; "best"; "happy"; "satisfied"; "pleased"].

Definition negativeWords : list string :=
  ["bad"; "terrible"; "awful"; "hate"; "worst"; "horrible"; "disappointing";
   "poor"; "angry"; "frustrated"; "upset"].

(** [words.forEach(word => { if (lowerText.includes(word)) score++ })]
    from a score that starts at 0. *)
Definition scoreWords (lowerText : string) (words : list string) : Z :=
  fold_left (fun score word => if Js.includes lowerText word then score + 1 else score)
            words 0.

Definition positiveScore (text : string) : Z :=
  scoreWords (Js.toLowerCase text) positiveWords.

Definition negativeScore (text : string) : Z :=
  scoreWords (Js.toLowerCase text) negativeWords.

(** [Math.min(0.95, 0.6 + (score * 0.1))] *)
Definition decidedConfidence (score : Z) : float :=
  Js.Math_min 0.95%float (0.6 + (Js.number score * 0.1))%float.

Definition analyzeSentiment (text : string) : Analysis :=
  let positiveScore := positiveScore text in
  let negativeScore := negativeScore text in
  if positiveScore >? negativeScore then
    {| sentiment := positive; confidence := decidedConfidence positiveScore |}
  else if negativeScore >? positiveScore then
    {| sentiment := negative; confidence := decidedConfidence negativeScore |}
  else
    {| sentiment := neutral; confidence := 0.7%float |}.

(** ** Requests, responses and the record store *)

(** A parsed JSON value, what [req.json()] resolves to. *)
Inductive Json : Type :=
| JNull
| JBool (b : bool)
| JNumber (x : float)
| JString (s : string)
| JArray (items : list Json)
| JObject (fields : list (string * Json)).

Record Request : Type := mkRequest {
  method : string;
  (** [None]: the body is not JSON, [req.json()] rejects. *)
  json_body : option Json
}.

Inductive Payload : Type :=
| ErrorObject (error : string)
| ResultObject (id : string) (sentiment : Sentiment) (confidence : float)
               (credits_remaining : Z).

Inductive Body : Type :=
| BodyText (text : string)
| BodyJson (payload : Payload).

Record Response : Type := mkResponse {
  body : Body;
  status : Z;
  headers : list (string * string)
}.

Definition corsHeaders : list (string * string) :=
  [("Access-Control-Allow-Origin", "*");
   ("Access-Control-Allow-Headers",
    "authorization, x-client-info, apikey, content-type")].

Definition jsonHeaders : list (string * string) :=
  (corsHeaders ++ [("Content-Type", "application/json")])%list.

(** [new Response(JSON.stringify(payload), { status, headers: {...corsHeaders,
    'Content-Type': 'application/json'} })] *)
Definition jsonResponse (payload : Payload) (status : Z) : Response :=
  {| body := BodyJson payload; status := status; headers := jsonHeaders |}.

(** A row of table [credits] and a row of table [feedback] (the columns the
    handler reads or writes; the time stamps are left out). *)
Record CreditsRow : Type := mkCreditsRow {
  credits_id : string;
  credits_used : Z;
  max_credits : Z
}.

Record FeedbackRow : Type := mkFeedbackRow {
  feedback_id : string;
  feedback_text : string;
  feedback_sentiment : Sentiment;
  confidence_score : float
}.

Record Store : Type := mkStore {
  credits : list CreditsRow;
  feedback : list FeedbackRow
}.

(** What the store does on one request, beyond its contents: whether each
    of the three queries comes back with an error, and the identifier the
    store generates for an inserted feedback row. *)
Record Env : Type := mkEnv {
  select_credits_fails : bool;
  insert_feedback_fails : bool;
  update_credits_fails : bool;
  generated_id : string
}.

(** [{ data, error }] of a query; [data] is [None] for JavaScript [null]. *)
Record QueryResult (A : Type) : Type := mkQueryResult {
  data : option A;
  error : bool
}.
Arguments mkQueryResult {A} _ _.
Arguments data {A} _.
Arguments error {A} _.

(** [from('credits').select('*').single()]: the row when the query succeeds
    and the table holds exactly one row, an error otherwise. *)
Definition selectCreditsSingle (env : Env) (st : Store) : QueryResult CreditsRow :=
  if select_credits_fails env then mkQueryResult None true
  else match credits st with
       | [row] => mkQueryResult (Some row) false
       | _ => mkQueryResult None true
       end.

(** [from('feedback').insert({...}).select().single()]: the stored row, with
    its generated identifier, and the store after the insertion. *)
Definition insertFeedback (env : Env) (st : Store) (text : string) (a : Analysis)
  : QueryResult FeedbackRow * Store :=
  if insert_feedback_fails env then (mkQueryResult None true, st)
  else
    let row := {| feedback_id := generated_id env;
                  feedback_text := text;
                  feedback_sentiment := sentiment a;
                  confidence_score := confidence a |} in
    (mkQueryResult (Some row) false,
     {| credits := credits st; feedback := (feedback st ++ [row])%list |}).

(** [from('credits').update({ credits_used: used }).eq('id', id)] *)
Definition updateCreditsUsed (env : Env) (st : Store) (id : string) (used : Z)
  : bool * Store :=
  if update_credits_fails env then (true, st)
  else
    (false,
     {| credits :=
          map (fun row =>
                 if String.eqb (credits_id row) id
                 then {| credits_id := credits_id row;
                         credits_used := used;
                         max_credits := max_credits row |}
                 else row)
              (credits st);
        feedback := feedback st |}).

(** ** The handler *)

(** The value of [x.feedback_text] for a parsed body [x] other than [null]:
    [None] is [undefined].  [JSON.parse] keeps the last of several members
    with one name; a primitive or an array has no such property. *)
Fixpoint getMember (name : string) (fields : list (string * Json)) : option Json :=
  match fields with
  | [] => None
  | (k, v) :: rest =>
      match getMember name rest with
      | Some later => Some later
      | None => if String.eqb k name then Some v else None
      end
  end.

Definition getProperty (name : string) (x : Json) : option Json :=
  match x with
  | JObject fields => getMember name fields
  | _ => None
  end.

(** Truthiness, as [!feedback_text] tests it. *)
Definition truthy (v : option Json) : bool :=
  match v with
  | None => false
  | Some JNull => false
  | Some (JBool b) => b
  | Some (JNumber x) => negb (PrimFloat.eqb x 0%float || PrimFloat.is_nan x)
  | Some (JString s) => negb (String.eqb s "")
  | Some (JArray _) => true
  | Some (JObject _) => true
  end.

(** How the body of the [try] block completes: with a [return], or with an
    exception that the [catch] clause receives. *)
Inductive Completion : Type :=
| Returned (r : Response)
| Thrown.

(** The state a request runs in and leaves: the store and the lines written
    with [console.error]. *)
Definition Log : Type := list string.

Definition tryBlock (env : Env) (req : Request) (st : Store)
  : Completion * Store * Log :=
  match json_body req with
  | None => (Thrown, st, [])                         (* req.json() rejects *)
  | Some JNull => (Thrown, st, [])                   (* destructuring null *)
  | Some parsed =>
    let feedback_text := getProperty "feedback_text" parsed in
    if negb (truthy feedback_text) then
      (Returned (jsonResponse (ErrorObject "Feedback text is required") 400), st, [])
    else
      let creditsResult := selectCreditsSingle env st in
      match data creditsResult with
      | None =>
        (Returned (jsonResponse (ErrorObject "Unable to check credits") 500), st, [])
      | Some creditsData =>
        if error creditsResult then
          (Returned (jsonResponse (ErrorObject "Unable to check credits") 500), st, [])
        else if credits_used creditsData >=? max_credits creditsData then
          (Returned
             (jsonResponse
                (ErrorObject "Credit limit reached. You have used all 5 credits.") 429),
           st, [])
        else
          match feedback_text with
          | Some (JString text) =>
            let analysis := analyzeSentiment text in
            let '(feedbackResult, st1) := insertFeedback env st text analysis in
            match error feedbackResult, data feedbackResult with
            | false, Some feedbackData =>
              let '(updateCreditsError, st2) :=
                updateCreditsUsed env st1 (credits_id creditsData)
                                  (credits_used creditsData + 1) in
              (Returned
                 (jsonResponse
                    (ResultObject (feedback_id feedbackData)
                                  (sentiment analysis)
                                  (confidence analysis)
                                  (max_credits creditsData
                                   - (credits_used creditsData + 1)))
                    200),
               st2,
               if updateCreditsError then ["Failed to update credits:"] else [])
            | true, _ =>
              (Returned (jsonResponse (ErrorObject "Failed to store feedback") 500),
               st1, [])
            | false, None => (Thrown, st1, [])       (* feedbackData.id of null *)
            end
          | _ => (Thrown, st, [])      (* text.toLowerCase is not a function *)
          end
      end
  end.

(** The function given to [serve]. *)
Definition handler (env : Env) (req : Request) (st : Store)
  : Response * Store * Log :=
  if String.eqb (method req) "OPTIONS" then
    ({| body := BodyText "ok"; status := 200; headers := corsHeaders |}, st, [])
  else
    match tryBlock env req st with
    | (Returned r, st', log) => (r, st', log)
    | (Thrown, st', log) =>
      (jsonResponse (ErrorObject "Internal server error") 500, st',
       (log ++ ["Error:"])%list)
    end.

Definition response_of (r : Response * Store * Log) : Response := fst (fst r).
Definition store_of (r : Response * Store * Log) : Store := snd (fst r).
Definition log_of (r : Response * Store * Log) : Log := snd r.

(** ** Matching, as the specification words it *)

(** A keyword matches a text when it occurs in the lower-cased text. *)
Definition matches (text word : string) : bool :=
  Js.includes (Js.toLowerCase text) word.

(** The count of matched keywords of a list: the keywords of the list that
    match, each counted once. *)
Definition matchedCount (words : list string) (text : string) : nat :=
  List.length (filter (matches text) words).

(** The keyword list of a side. *)
Definition keywordsOf (side : Sentiment) : list string :=
  match side with
  | positive => positiveWords
  | negative => negativeWords
  | neutral => []
  end.

(** A code unit occurs in a string. *)
Fixpoint hasUnit (c : ascii) (s : string) : bool :=
  match s with
  | EmptyString => false
  | String a rest => Ascii.eqb a c || hasUnit c rest
  end.

(** ** The gate, the paths of the handler and its refusals *)

(** The counter row the gate reads: the [credits] query succeeded and
    returned [row]. *)
Definition creditsRead (env : Env) (st : Store) (row : CreditsRow) : Prop :=
  selectCreditsSingle env st = mkQueryResult (Some row) false.

Definition preflightResponse : Response :=
  {| body := BodyText "ok"; status := 200; headers := corsHeaders |}.

Definition storedRow (env : Env) (text : string) : FeedbackRow :=
  {| feedback_id := generated_id env;
     feedback_text := text;
     feedback_sentiment := sentiment (analyzeSentiment text);
     confidence_score := confidence (analyzeSentiment text) |}.

Definition incremented (row : CreditsRow) : CreditsRow :=
  {| credits_id := credits_id row;
     credits_used := credits_used row + 1;
     max_credits := max_credits row |}.

Definition resultResponse (env : Env) (row : CreditsRow) (text : string) : Response :=
  jsonResponse
    (ResultObject (generated_id env)
                  (sentiment (analyzeSentiment text))
                  (confidence (analyzeSentiment text))
                  (max_credits row - (credits_used row + 1)))
    200.

(** What one request does, path by path: the answer, the store it leaves
    and the lines it logs. *)
Inductive handles (env : Env) (req : Request) (st : Store)
  : Response * Store * Log -> Prop :=
| handles_preflight :
    method req = "OPTIONS" ->
    handles env req st (preflightResponse, st, [])
| handles_unparsed :
    method req <> "OPTIONS" ->
    json_body req = None \/ json_body req = Some JNull ->
    handles env req st
      (jsonResponse (ErrorObject "Internal server error") 500, st, ["Error:"])
| handles_falsy_text parsed :
    method req <> "OPTIONS" ->
    json_body req = Some parsed ->
    parsed <> JNull ->
    truthy (getProperty "feedback_text" parsed) = false ->
    handles env req st
      (jsonResponse (ErrorObject "Feedback text is required") 400, st, [])
| handles_unreadable parsed :
    method req <> "OPTIONS" ->
    json_body req = Some parsed ->
    parsed <> JNull ->
    truthy (getProperty "feedback_text" parsed) = true ->
    (forall row, ~ creditsRead env st row) ->
    handles env req st
      (jsonResponse (ErrorObject "Unable to check credits") 500, st, [])
| handles_exhausted parsed row :
    method req <> "OPTIONS" ->
    json_body req = Some parsed ->
    parsed <> JNull ->
    truthy (getProperty "feedback_text" parsed) = true ->
    creditsRead env st row ->
    credits_used row >= max_credits row ->
    handles env req st
      (jsonResponse
         (ErrorObject "Credit limit reached. You have used all 5 credits.") 429,
       st, [])
| handles_not_a_string parsed row :
    method req <> "OPTIONS" ->
    json_body req = Some parsed ->
    parsed <> JNull ->
    truthy (getProperty "feedback_text" parsed) = true ->
    (forall text, getProperty "feedback_text" parsed <> Some (JString text)) ->
    creditsRead env st row ->
    credits_used row < max_credits row ->
    handles env req st
      (jsonResponse (ErrorObject "Internal server error") 500, st, ["Error:"])
| handles_insert_failed parsed row text :
    method req <> "OPTIONS" ->
    json_body req = Some parsed ->
    getProperty "feedback_text" parsed = Some (JString text) ->
    creditsRead env st row ->
    credits_used row < max_credits row ->
    insert_feedback_fails env = true ->
    handles env req st
      (jsonResponse (ErrorObject "Failed to store feedback") 500, st, [])
| handles_stored parsed row text :
    method req <> "OPTIONS" ->
    json_body req = Some parsed ->
    getProperty "feedback_text" parsed = Some (JString text) ->
    text <> "" ->
    creditsRead env st row ->
    credits_used row < max_credits row ->
    insert_feedback_fails env = false ->
    handles env req st
      (resultResponse env row text,
       {| credits := if update_credits_fails env then [row] else [incremented row];
          feedback := (feedback st ++ [storedRow env text])%list |},
       if update_credits_fails env then ["Failed to update credits:"] else []).

(** The four refusals that the specification gives a status to. *)
Inductive Refusal : Type :=
| MissingText
| CreditsExhausted
| CreditsUnreadable
| InsertFailed.

(** The status and the message of each, as the specification assigns them:
    400 for missing input, 429 for exhausted credits, 500 for a failure of
    the store. *)
Definition specStatus (why : Refusal) : Z :=
  match why with
  | MissingText => 400
  | CreditsExhausted => 429
  | CreditsUnreadable => 500
  | InsertFailed => 500
  end.

Definition refusalMessage (why : Refusal) : string :=
  match why with
  | MissingText => "Feedback text is required"
  | CreditsExhausted => "Credit limit reached. You have used all 5 credits."
  | CreditsUnreadable => "Unable to check credits"
  | InsertFailed => "Failed to store feedback"
  end.

(** When each refusal is due, for a request that is not a preflight and
    whose body [parsed] is JSON other than [null]. *)
Definition due (why : Refusal) (env : Env) (st : Store) (parsed : Json) : Prop :=
  let feedback_text := getProperty "feedback_text" parsed in
  match why with
  | MissingText => feedback_text = None
  | CreditsUnreadable =>
      truthy feedback_text = true
      /\ (data (selectCreditsSingle env st) = None
          \/ error (selectCreditsSingle env st) = true)
  | CreditsExhausted =>
      truthy feedback_text = true
      /\ exists row, creditsRead env st row
                     /\ credits_used row >= max_credits row
  | InsertFailed =>
      exists text row,
        feedback_text = Some (JString text) /\ text <> ""
        /\ creditsRead env st row
        /\ credits_used row < max_credits row
        /\ insert_feedback_fails env = true
  end.

(** The text field is missing from the body of a request, in the words of
    the specification: the body holds no [feedback_text] member, be it an
    object without one, a value that is no object, or no JSON at all. *)
Definition textFieldMissing (req : Request) : Prop :=
  match json_body req with
  | None => True
  | Some parsed => getProperty "feedback_text" parsed = None
  end.

(** A [POST] whose body is the JSON value [null], and one whose body is
    empty or not JSON. *)
Definition nullBodyRequest : Request :=
  {| method := "POST"; json_body := Some JNull |}.

Definition unparsedRequest : Request :=
  {| method := "POST"; json_body := None |}.

(** ** Sample stores, environments and requests *)

Definition exhaustedStore : Store :=
  {| credits := [{| credits_id := "c-1"; credits_used := 5; max_credits := 5 |}];
     feedback := [] |}.

Definition readyStore : Store :=
  {| credits := [{| credits_id := "c-1"; credits_used := 2; max_credits := 5 |}];
     feedback := [] |}.

Definition healthy : Env :=
  {| select_credits_fails := false;
     insert_feedback_fails := false;
     update_credits_fails := false;
     generated_id := "f-1" |}.

Definition submit (text : Json) : Request :=
  {| method := "POST"; json_body := Some (JObject [("feedback_text", text)]) |}.

Definition updateRefused : Env :=
  {| select_credits_fails := false;
     insert_feedback_fails := false;
     update_credits_fails := true;
     generated_id := "f-1" |}.

Definition insertRefused : Env :=
  {| select_credits_fails := false;
     insert_feedback_fails := true;
     update_credits_fails := false;
     generated_id := "f-1" |}.

(** ** The server over several requests *)

(** [serve(handler)] with one request at a time: each request is handled on
    the store that the one before left, and comes with what the store does
    on it. *)
Fixpoint serve (requests : list (Env * Request)) (st : Store)
  : list Response * Store :=
  match requests with
  | [] => ([], st)
  | (env, req) :: rest =>
      let '(r, st1, _) := handler env req st in
      let '(rs, st2) := serve rest st1 in
      (r :: rs, st2)
  end.

(** The store that the migration creates: no feedback and the one counter
    row of [INSERT INTO public.credits (credits_used, max_credits) VALUES
    (0, 5)], under its generated identifier. *)
Definition migratedStore (id : string) : Store :=
  {| credits := [{| credits_id := id; credits_used := 0; max_credits := 5 |}];
     feedback := [] |}.

(** A request that carries a text: not a preflight, with a JSON body whose
    [feedback_text] is a string other than the empty one. *)
Definition carriesText (req : Request) (text : string) : Prop :=
  method req <> "OPTIONS"
  /\ exists parsed,
       json_body req = Some parsed
       /\ getProperty "feedback_text" parsed = Some (JString text)
       /\ text <> "".

(** The store answers the reading of the counter and the insertion. *)
Definition storeAnswers (env : Env) : Prop :=
  select_credits_fails env = false /\ insert_feedback_fails env = false.

(** The requests of a list all carry a text, and the store does for each
    what [does] says. *)
Definition allSubmissions (does : Env -> Prop) (requests : list (Env * Request))
  : Prop :=
  Forall (fun er => does (fst er) /\ exists text, carriesText (snd er) text)
         requests.

(** The credits left on a counter row, none when it is over its cap. *)
Definition creditsLeft (row : CreditsRow) : nat :=
  Z.to_nat (max_credits row - credits_used row).

(** ** The page, [FeedbackAnalyzer] *)

Module Client.

(** Code units below 256 that [String.prototype.trim] removes: the white
    space TAB, VT, FF, SP, NBSP and the line terminators LF, CR. *)
Definition isWhiteSpace (c : ascii) : bool :=
  let n := N_of_ascii c in
  ((9 <=? n) && (n <=? 13) || (n =? 32) || (n =? 160))%N.

Fixpoint trimStart (s : string) : string :=
  match s with
  | EmptyString => EmptyString
  | String c rest => if isWhiteSpace c then trimStart rest else s
  end.

Fixpoint trimEnd (s : string) : string :=
  match s with
  | EmptyString => EmptyString
  | String c rest =>
      match trimEnd rest with
      | EmptyString => if isWhiteSpace c then EmptyString else String c EmptyString
      | kept => String c kept
      end
  end.

(** [s.trim()] *)
Definition trim (s : string) : string := trimEnd (trimStart s).

(** [Math.round(x)] of a finite number, as the integer it denotes: the
    integer closest to [x], the larger one of two equally close.  [None]
    is NaN or an infinity, which [Math.round] returns as they are. *)
Definition Math_round (x : float) : option Z :=
  match Prim2SF x with
  | S754_zero _ => Some 0
  | S754_finite s m e =>
      let num := (if s then Z.neg m else Z.pos m) * 2 ^ Z.max e 0 in
      let den := 2 ^ Z.max (- e) 0 in
      Some ((2 * num + den) / (2 * den))
  | S754_infinity _ => None
  | S754_nan => None
  end.

(** [interface Credits] *)
Record Credits : Type := mkCredits {
  credits_used : Z;
  max_credits : Z
}.

(** The calls of [toast] in [analyzeFeedback]. *)
Inductive Toast : Type :=
| EmptyFeedback
| CreditLimitReached
| AnalysisComplete (sentiment : option Sentiment) (percent : option Z)
| AnalysisFailed (description : string).

(** The state of the component that [analyzeFeedback] reads or sets, and
    the toasts shown so far.  [result] holds the body of the answer as it
    was parsed; the list of recent feedback is left out. *)
Record State : Type := mkState {
  feedback : string;
  isAnalyzing : bool;
  result : option Body;
  credits : Credits;
  toasts : list Toast
}.

(** [{ data, error }] of [supabase.functions.invoke]: the parsed body of an
    answer with a status from 200 to 299, an error with its message for any
    other status.  The request reaches the function. *)
Inductive InvokeResult : Type :=
| InvokeData (data : Body)
| InvokeError (message : string).

(** The request that [invoke('analyze-sentiment', { body: { feedback_text:
    feedback } })] sends. *)
Definition invokeRequest (feedback : string) : Request :=
  {| method := "POST";
     json_body := Some (JObject [("feedback_text", JString feedback)]) |}.

Definition invoke (env : Env) (feedback : string) (server : Store)
  : InvokeResult * Store :=
  let '(r, server', _) := handler env (invokeRequest feedback) server in
  if ((200 <=? status r) && (status r <=? 299))%Z
  then (InvokeData (body r), server')
  else (InvokeError "Edge Function returned a non-2xx status code", server').

(** [data.sentiment] and [data.confidence]; [None] is [undefined]. *)
Definition dataSentiment (data : Body) : option Sentiment :=
  match data with
  | BodyJson (ResultObject _ s _ _) => Some s
  | _ => None
  end.

Definition dataConfidence (data : Body) : option float :=
  match data with
  | BodyJson (ResultObject _ _ c _) => Some c
  | _ => None
  end.

(** [Math.round(data.confidence * 100)] *)
Definition percent (data : Body) : option Z :=
  match dataConfidence data with
  | Some c => Math_round (c * 100)%float
  | None => None
  end.

(** The rest of [analyzeFeedback] once [invoke] has settled: the body of the
    [try] after the [await], the [catch] clause and the [finally] clause. *)
Definition settle (st : State) (outcome : InvokeResult) : State :=
  match outcome with
  | InvokeError message =>
      {| feedback := feedback st;
         isAnalyzing := false;
         result := None;
         credits := credits st;
         toasts :=
           (toasts st
            ++ [AnalysisFailed
                  (if String.eqb message ""
                   then "Failed to analyze feedback. Please try again."
                   else message)])%list |}
  | InvokeData data =>
      {| feedback := "";
         isAnalyzing := false;
         result := Some data;
         credits := {| credits_used := credits_used (credits st) + 1;
                       max_credits := max_credits (credits st) |};
         toasts :=
           (toasts st ++ [AnalysisComplete (dataSentiment data) (percent data)])%list |}
  end.

(** [analyzeFeedback], with the store of the server that [invoke] reaches. *)
Definition analyzeFeedback (env : Env) (st : State) (server : Store)
  : State * Store :=
  if String.eqb (trim (feedback st)) "" then
    ({| feedback := feedback st;
        isAnalyzing := isAnalyzing st;
        result := result st;
        credits := credits st;
        toasts := (toasts st ++ [EmptyFeedback])%list |},
     server)
  else if (credits_used (credits st) >=? max_credits (credits st))%Z then
    ({| feedback := feedback st;
        isAnalyzing := isAnalyzing st;
        result := result st;
        credits := credits st;
        toasts := (toasts st ++ [CreditLimitReached])%list |},
     server)
  else
    let '(outcome, server') := invoke env (feedback st) server in
    (settle st outcome, server').

(** [const creditsRemaining = credits.max_credits - credits.credits_used] *)
Definition creditsRemaining (st : State) : Z :=
  max_credits (credits st) - credits_used (credits st).

(** The [disabled] attribute of the button. *)
Definition buttonDisabled (st : State) : bool :=
  isAnalyzing st
  || String.eqb (trim (feedback st)) ""
  || (creditsRemaining st =? 0)%Z.

End Client.

(** The page shows the counter of the server: what [fetchCredits] sets. *)
Definition inSync (st : Client.State) (server : Store) : Prop :=
  exists row,
    credits server = [row]
    /\ Client.credits st
       = {| Client.credits_used := credits_used row;
            Client.max_credits := max_credits row |}.

(** A page as it is after loading, with a text typed in. *)
Definition freshPage (text : string) (used cap : Z) : Client.State :=
  {| Client.feedback := text;
     Client.isAnalyzing := false;
     Client.result := None;
     Client.credits := {| Client.credits_used := used; Client.max_credits := cap |};
     Client.toasts := [] |}.

(** * Properties *)

(** ** Strings *)

Section StringFacts.

Lemma startsWith_iff (s w : string) :
  Js.startsWith s w = true <-> exists post, s = w ++ post.
Proof.
  revert s; induction w as [|a w IH]; intros s; simpl.
  - split; [intros _; now exists s | reflexivity].
  - destruct s as [|b s].
    + split; [discriminate | intros [post H]; discriminate].
    + rewrite andb_true_iff, Ascii.eqb_eq, IH. split.
      * intros [-> [post ->]]. now exists post.
      * intros [post H]. injection H as -> ->. split; [reflexivity | now exists post].
Qed.

Lemma includes_iff (s w : string) :
  Js.includes s w = true <-> exists pre post, s = pre ++ w ++ post.
Proof.
  induction s as [|c s IH]; simpl.
  - rewrite orb_false_r, startsWith_iff. split.
    + intros [post H]. now exists "", post.
    + intros [pre [post H]]. exists post. destruct pre; [exact H | discriminate].
  - rewrite orb_true_iff, startsWith_iff, IH. split.
    + intros [[post H] | [pre [post H]]].
      * now exists "", post.
      * exists (String c pre), post. simpl. now rewrite H.
    + intros [pre [post H]]. destruct pre as [|p pre]; simpl in H.
      * left. now exists post.
      * right. injection H as _ H. now exists pre, post.
Qed.

Lemma startsWith_split (c : ascii) (w : string) :
  hasUnit c w = false ->
  forall a b, Js.startsWith (a ++ String c b) w = Js.startsWith a w.
Proof.
  induction w as [|x w IH]; intros Hc a b.
  - now destruct a.
  - simpl in Hc. apply orb_false_iff in Hc as [Hx Hw].
    destruct a as [|y a]; simpl.
    + now rewrite Hx.
    + now rewrite (IH Hw).
Qed.

(** An occurrence of [w] cannot straddle a code unit that [w] lacks. *)
Lemma includes_split (c : ascii) (w : string) :
  hasUnit c w = false ->
  forall a b,
    Js.includes (a ++ String c b) w = Js.includes a w || Js.includes b w.
Proof.
  intros Hc a b. induction a as [|y a IH].
  - change (Js.includes ("" ++ String c b) w)
      with (Js.startsWith ("" ++ String c b) w || Js.includes b w).
    rewrite (startsWith_split c w Hc). simpl. now rewrite orb_false_r.
  - change (Js.includes (String y a ++ String c b) w)
      with (Js.startsWith (String y a ++ String c b) w
            || Js.includes (a ++ String c b) w).
    rewrite (startsWith_split c w Hc), IH.
    change (Js.includes (String y a) w)
      with (Js.startsWith (String y a) w || Js.includes a w).
    now rewrite !orb_assoc.
Qed.

Lemma lowerUnit_idempotent (c : ascii) :
  Js.lowerUnit (Js.lowerUnit c) = Js.lowerUnit c.
Proof. destruct c as [[] [] [] [] [] [] [] []]; reflexivity. Qed.

Lemma toLowerCase_idempotent (s : string) :
  Js.toLowerCase (Js.toLowerCase s) = Js.toLowerCase s.
Proof.
  induction s as [|c s IH]; simpl; [reflexivity|].
  now rewrite lowerUnit_idempotent, IH.
Qed.

Lemma toLowerCase_append (a b : string) :
  Js.toLowerCase (a ++ b) = Js.toLowerCase a ++ Js.toLowerCase b.
Proof. induction a as [|c a IH]; simpl; [reflexivity | now rewrite IH]. Qed.

End StringFacts.

(** ** Scores and counts *)

Section Scores.

Variable lowerText : string.

Let bump (score : Z) (word : string) : Z :=
  if Js.includes lowerText word then score + 1 else score.

Lemma fold_bump (words : list string) (start : Z) :
  fold_left bump words start
  = start + Z.of_nat (List.length (filter (Js.includes lowerText) words)).
Proof.
  revert start; induction words as [|w words IH]; intros start; simpl.
  - lia.
  - rewrite IH. unfold bump. destruct (Js.includes lowerText w); simpl List.length; lia.
Qed.

(** The loop of the source counts the keywords that occur, once each. *)
Lemma scoreWords_filter (words : list string) :
  scoreWords lowerText words
  = Z.of_nat (List.length (filter (Js.includes lowerText) words)).
Proof. unfold scoreWords. exact (fold_bump words 0). Qed.

Lemma scoreWords_bounds (words : list string) :
  0 <= scoreWords lowerText words <= Z.of_nat (List.length words).
Proof.
  rewrite scoreWords_filter.
  pose proof (filter_length_le (Js.includes lowerText) words). lia.
Qed.

End Scores.

Lemma positiveScore_count (text : string) :
  positiveScore text = Z.of_nat (matchedCount positiveWords text).
Proof. apply scoreWords_filter. Qed.

Lemma negativeScore_count (text : string) :
  negativeScore text = Z.of_nat (matchedCount negativeWords text).
Proof. apply scoreWords_filter. Qed.

Lemma positiveScore_bounds (text : string) : 0 <= positiveScore text <= 13.
Proof. apply (scoreWords_bounds (Js.toLowerCase text) positiveWords). Qed.

Lemma negativeScore_bounds (text : string) : 0 <= negativeScore text <= 11.
Proof. apply (scoreWords_bounds (Js.toLowerCase text) negativeWords). Qed.

Lemma matchedCount_zero (words : list string) (text : string) :
  matchedCount words text = 0%nat <->
  forall w, In w words -> matches text w = false.
Proof.
  unfold matchedCount. induction words as [|x words IH]; simpl.
  - split; [intros _ w [] | reflexivity].
  - destruct (matches text x) eqn:E; simpl.
    + split; [discriminate|]. intros H. specialize (H x (or_introl eq_refl)). congruence.
    + rewrite IH. split.
      * intros H w [<- | Hin]; [exact E | now apply H].
      * intros H w Hin. apply H. now right.
Qed.

Lemma matchedCount_positive (words : list string) (text : string) :
  (0 < matchedCount words text)%nat <->
  exists w, In w words /\ matches text w = true.
Proof.
  split.
  - intros H. destruct (filter (matches text) words) as [|w l] eqn:E.
    + unfold matchedCount in H. rewrite E in H. simpl in H. lia.
    + assert (Hin : In w (filter (matches text) words)) by (rewrite E; now left).
      apply filter_In in Hin. now exists w.
  - intros [w [Hin Hm]].
    destruct (matchedCount words text) eqn:E; [|lia].
    apply matchedCount_zero with (w := w) in E; [congruence | exact Hin].
Qed.

(** ** The confidence of a decided side *)

Ltac each_score k H :=
  let n := fresh "n" in
  let E := fresh "E" in
  remember (Z.to_nat k) as n eqn:E;
  assert (k = Z.of_nat n) by lia;
  assert (n <= 13)%nat by lia;
  subst k; clear E H;
  do 14 (destruct n as [|n]; [vm_compute; reflexivity|]);
  lia.

Lemma decidedConfidence_le (k : Z) :
  0 <= k <= 13 -> PrimFloat.leb (decidedConfidence k) 0.95%float = true.
Proof. intros H. each_score k H. Qed.

(** Multiplication by [0.1] gives the same number on either side. *)
Lemma decidedConfidence_formula (k : Z) :
  0 <= k <= 13 ->
  decidedConfidence k = Js.Math_min 0.95%float (0.6 + 0.1 * Js.number k)%float.
Proof. intros H. each_score k H. Qed.

(** The values: [0.7], [0.8], [0.9] for one, two, three matches and the cap
    [0.95] from four matches on. *)
Lemma decidedConfidence_values (k : Z) :
  0 <= k <= 13 ->
  decidedConfidence k
  = nth (Z.to_nat k) [0.6; 0.7; 0.8; 0.9]%float 0.95%float.
Proof. intros H. each_score k H. Qed.

(** ** The decision rule *)

(** The three branches of [analyzeSentiment], by the comparison of the two
    counts. *)
Lemma analyzeSentiment_cases (text : string) :
  let p := matchedCount positiveWords text in
  let n := matchedCount negativeWords text in
  ((n < p)%nat /\
   analyzeSentiment text
   = {| sentiment := positive; confidence := decidedConfidence (Z.of_nat p) |})
  \/ ((p < n)%nat /\
      analyzeSentiment text
      = {| sentiment := negative; confidence := decidedConfidence (Z.of_nat n) |})
  \/ (p = n /\
      analyzeSentiment text
      = {| sentiment := neutral; confidence := 0.7%float |}).
Proof.
  intros p n. unfold analyzeSentiment.
  rewrite positiveScore_count, negativeScore_count. fold p n.
  destruct (Z.of_nat p >? Z.of_nat n) eqn:E1.
  - left. split; [lia | reflexivity].
  - destruct (Z.of_nat n >? Z.of_nat p) eqn:E2.
    + right; left. split; [lia | reflexivity].
    + right; right. split; [lia | reflexivity].
Qed.

(** C1. For every non-empty text the classifier answers [positive]
    exactly when strictly more positive than negative keywords match,
    [negative] exactly when strictly more negative than positive keywords
    match, and [neutral] with confidence 0.7 whenever the two counts are
    equal, the case of no match at all included. *)
Theorem analyzeSentiment_decision_rule (text : string) :
  text <> "" ->
  (sentiment (analyzeSentiment text) = positive <->
   (matchedCount negativeWords text < matchedCount positiveWords text)%nat)
  /\ (sentiment (analyzeSentiment text) = negative <->
      (matchedCount positiveWords text < matchedCount negativeWords text)%nat)
  /\ (matchedCount positiveWords text = matchedCount negativeWords text ->
      analyzeSentiment text = {| sentiment := neutral; confidence := 0.7%float |}).
Proof.
  intros _.
  destruct (analyzeSentiment_cases text) as [[H E] | [[H E] | [H E]]];
    rewrite E; cbn [sentiment]; repeat split; intros;
    try lia; try discriminate; reflexivity.
Qed.

Lemma analyzeSentiment_decision_rule_witness :
  "good bad good" <> ""
  /\ analyzeSentiment "good bad good"
     = {| sentiment := neutral; confidence := 0.7%float |}.
Proof.
  split; [discriminate|].
  refine (proj2 (proj2 (analyzeSentiment_decision_rule "good bad good" _)) _).
  - discriminate.
  - vm_compute; reflexivity.
Defined.

(** C2. When the classifier decides a side, the confidence is
    [min(0.95, 0.6 + 0.1 * k)], [k] the number of matched keywords of the
    side that won, in the binary64 arithmetic of the source. *)
Theorem analyzeSentiment_decided_confidence (text : string) (side : Sentiment) :
  sentiment (analyzeSentiment text) = side ->
  side <> neutral ->
  confidence (analyzeSentiment text)
  = Js.Math_min 0.95%float
      (0.6 + 0.1 * Js.number (Z.of_nat (matchedCount (keywordsOf side) text)))%float.
Proof.
  intros Hs Hside.
  pose proof (positiveScore_bounds text) as Hp.
  pose proof (negativeScore_bounds text) as Hn.
  rewrite positiveScore_count in Hp. rewrite negativeScore_count in Hn.
  destruct (analyzeSentiment_cases text) as [[H E] | [[H E] | [H E]]];
    rewrite E in Hs |- *; cbn [sentiment] in Hs; subst side;
    cbn [confidence keywordsOf].
  - apply decidedConfidence_formula; lia.
  - apply decidedConfidence_formula; lia.
  - now contradiction Hside.
Qed.

Lemma analyzeSentiment_decided_confidence_witness :
  confidence (analyzeSentiment "I hate this, it is the worst")
  = Js.Math_min 0.95%float (0.6 + 0.1 * Js.number 2)%float.
Proof.
  refine (analyzeSentiment_decided_confidence
            "I hate this, it is the worst" negative _ _).
  - vm_compute; reflexivity.
  - discriminate.
Defined.

(** C4. Whatever the text and the branch, the confidence is at most 0.95. *)
Theorem analyzeSentiment_confidence_le (text : string) :
  PrimFloat.leb (confidence (analyzeSentiment text)) 0.95%float = true.
Proof.
  pose proof (positiveScore_bounds text) as Hp.
  pose proof (negativeScore_bounds text) as Hn.
  rewrite positiveScore_count in Hp. rewrite negativeScore_count in Hn.
  destruct (analyzeSentiment_cases text) as [[H E] | [[H E] | [H E]]];
    rewrite E; cbn [confidence].
  - apply decidedConfidence_le. lia.
  - apply decidedConfidence_le. lia.
  - reflexivity.
Qed.

(** C5. A text that matches some positive keyword and no negative keyword
    is classified [positive]. *)
Theorem analyzeSentiment_only_positive (text : string) :
  (exists w, In w positiveWords /\ matches text w = true) ->
  (forall w, In w negativeWords -> matches text w = false) ->
  sentiment (analyzeSentiment text) = positive.
Proof.
  intros Hpos Hneg.
  apply matchedCount_positive in Hpos. apply matchedCount_zero in Hneg.
  destruct (analyzeSentiment_cases text) as [[H E] | [[H E] | [H E]]];
    rewrite E; cbn [sentiment]; [reflexivity | lia | lia].
Qed.

Lemma analyzeSentiment_only_positive_witness :
  sentiment (analyzeSentiment "We LOVE it") = positive.
Proof.
  refine (analyzeSentiment_only_positive "We LOVE it" _ _).
  - exists "love". split; [simpl; tauto | vm_compute; reflexivity].
  - intros w Hw. simpl in Hw.
    repeat (destruct Hw as [<- | Hw]; [vm_compute; reflexivity|]). contradiction.
Defined.

(** C9. The text "This is great and awesome" matches two positive keywords
    and no negative one, and is classified [positive] with confidence 0.8. *)
Theorem analyzeSentiment_great_and_awesome :
  analyzeSentiment "This is great and awesome"
  = {| sentiment := positive; confidence := 0.8%float |}
  /\ filter (matches "This is great and awesome") positiveWords
     = ["great"; "awesome"]
  /\ filter (matches "This is great and awesome") negativeWords = []
  /\ (0.6 + Js.number 2 * 0.1)%float = 0.8%float.
Proof. repeat split; vm_compute; reflexivity. Qed.

(** ** Keyword matching *)

Lemma matches_iff (text w : string) :
  matches text w = true <->
  exists pre post, Js.toLowerCase text = pre ++ w ++ post.
Proof. apply includes_iff. Qed.

(** An occurrence of a keyword in any letter case, anywhere in the text,
    is a match. *)
Lemma matches_any_case (pre occurrence post w : string) :
  Js.toLowerCase occurrence = w ->
  matches (pre ++ occurrence ++ post) w = true.
Proof.
  intros <-. apply matches_iff.
  exists (Js.toLowerCase pre), (Js.toLowerCase post).
  now rewrite !toLowerCase_append.
Qed.

Lemma keywords_lower_case :
  Forall (fun w => Js.toLowerCase w = w) (positiveWords ++ negativeWords).
Proof. repeat constructor. Qed.

Lemma keywords_without_space :
  forallb (fun w => negb (hasUnit " " w)) (positiveWords ++ negativeWords) = true.
Proof. reflexivity. Qed.

(** Writing the text a second time, after a space, changes no score. *)
Lemma scoreWords_repeated (lowerText : string) (words : list string) :
  forallb (fun w => negb (hasUnit " " w)) words = true ->
  scoreWords (lowerText ++ String " " lowerText) words = scoreWords lowerText words.
Proof.
  intros Hw. rewrite !scoreWords_filter. do 2 f_equal.
  induction words as [|w words IH]; [reflexivity|].
  simpl in Hw. apply andb_true_iff in Hw as [Hc Hw].
  apply negb_true_iff in Hc.
  simpl. rewrite (includes_split " " w Hc), orb_diag, (IH Hw). reflexivity.
Qed.

Lemma toLowerCase_repeated (text : string) :
  Js.toLowerCase (text ++ " " ++ text)
  = Js.toLowerCase text ++ String " " (Js.toLowerCase text).
Proof. now rewrite toLowerCase_append. Qed.

(** C10. Matching is containment of the keyword in the lower-cased text:
    a keyword matches exactly when it is a substring of the lower-cased
    text, so an occurrence in any letter case and inside a longer word
    matches ("badge" matches "bad"); each score is the number of keywords
    of its list that match, each counted once, so writing the text twice
    leaves both scores as they are, and the positive score is at most 13
    and the negative score at most 11. *)
Theorem keyword_matching (text : string) :
  (forall w, matches text w = true <->
             exists pre post, Js.toLowerCase text = pre ++ w ++ post)
  /\ (forall pre occurrence post w,
         Js.toLowerCase occurrence = w ->
         matches (pre ++ occurrence ++ post) w = true)
  /\ analyzeSentiment (Js.toLowerCase text) = analyzeSentiment text
  /\ (matches "badge" "bad" = true /\ matches "BADGE" "bad" = true
      /\ negativeScore "badge" = 1)
  /\ (positiveScore text = Z.of_nat (matchedCount positiveWords text)
      /\ negativeScore text = Z.of_nat (matchedCount negativeWords text))
  /\ (positiveScore (text ++ " " ++ text) = positiveScore text
      /\ negativeScore (text ++ " " ++ text) = negativeScore text)
  /\ (positiveScore "good good good" = 1 /\ positiveScore "good" = 1)
  /\ (positiveScore text <= 13 /\ negativeScore text <= 11).
Proof.
  split; [intros w; apply matches_iff|].
  split; [apply matches_any_case|].
  split.
  { unfold analyzeSentiment, positiveScore, negativeScore.
    now rewrite toLowerCase_idempotent. }
  split; [repeat split; vm_compute; reflexivity|].
  split; [split; [apply positiveScore_count | apply negativeScore_count]|].
  split.
  { unfold positiveScore, negativeScore. rewrite toLowerCase_repeated.
    split; apply scoreWords_repeated; reflexivity. }
  split; [split; vm_compute; reflexivity|].
  split; [apply positiveScore_bounds | apply negativeScore_bounds].
Qed.

(** ** The handler on a submission *)

Lemma Json_eq_null (x : Json) : x = JNull \/ x <> JNull.
Proof. destruct x; [now left | right; discriminate ..]. Qed.

Lemma creditsRead_inv (env : Env) (st : Store) (row : CreditsRow) :
  creditsRead env st row <->
  select_credits_fails env = false /\ credits st = [row].
Proof.
  unfold creditsRead, selectCreditsSingle. split.
  - destruct (select_credits_fails env); [discriminate|].
    destruct (credits st) as [|r [|r' l]]; try discriminate.
    intros H. injection H as ->. now split.
  - intros [-> ->]. reflexivity.
Qed.

Section Submission.

Variables (env : Env) (req : Request) (st : Store) (parsed : Json).

(** The request is not a CORS preflight and its body is JSON other than
    [null]. *)
Hypothesis not_preflight : method req <> "OPTIONS".
Hypothesis body_parsed : json_body req = Some parsed.
Hypothesis body_not_null : parsed <> JNull.

Abbreviation feedback_text := (getProperty "feedback_text" parsed).

Local Ltac enter :=
  unfold handler, tryBlock;
  rewrite (proj2 (String.eqb_neq _ _) not_preflight), body_parsed;
  destruct parsed; [contradiction body_not_null; reflexivity | ..].

(** Line 17: a falsy [feedback_text] is answered with status 400. *)
Lemma handler_falsy_text :
  truthy feedback_text = false ->
  handler env req st
  = (jsonResponse (ErrorObject "Feedback text is required") 400, st, []).
Proof.
  intros Ht. enter.
  all: cbn [getProperty] in *; rewrite Ht; reflexivity.
Qed.

(** Line 39: an unreadable counter is answered with status 500. *)
Lemma handler_credits_unreadable :
  truthy feedback_text = true ->
  data (selectCreditsSingle env st) = None
  \/ error (selectCreditsSingle env st) = true ->
  handler env req st
  = (jsonResponse (ErrorObject "Unable to check credits") 500, st, []).
Proof.
  intros Ht Hsel. enter.
  all: cbn [getProperty] in *; try discriminate Ht; rewrite Ht; cbn [negb];
    destruct (data (selectCreditsSingle env st));
    destruct Hsel as [Hsel | Hsel]; try discriminate; try reflexivity;
    rewrite Hsel; reflexivity.
Qed.

(** Line 49: an exhausted counter is answered with status 429. *)
Lemma handler_credits_exhausted (row : CreditsRow) :
  truthy feedback_text = true ->
  creditsRead env st row ->
  credits_used row >= max_credits row ->
  handler env req st
  = (jsonResponse
       (ErrorObject "Credit limit reached. You have used all 5 credits.") 429,
     st, []).
Proof.
  intros Ht Hsel Hge. enter.
  all: cbn [getProperty] in *; try discriminate Ht; rewrite Ht; cbn [negb];
    unfold creditsRead in Hsel; rewrite !Hsel; cbn [data error];
    destruct (credits_used row >=? max_credits row) eqn:E;
    first [reflexivity | lia].
Qed.

(** Lines 96-143: a text that passes the gate is classified and
    inserted; the answer depends on the insertion alone. *)
Lemma handler_classifies (row : CreditsRow) (text : string) :
  feedback_text = Some (JString text) ->
  text <> "" ->
  creditsRead env st row ->
  credits_used row < max_credits row ->
  handler env req st
  = let analysis := analyzeSentiment text in
    let '(feedbackResult, st1) := insertFeedback env st text analysis in
    if insert_feedback_fails env then
      (jsonResponse (ErrorObject "Failed to store feedback") 500, st, [])
    else
      let '(updateCreditsError, st2) :=
        updateCreditsUsed env st1 (credits_id row) (credits_used row + 1) in
      (jsonResponse
         (ResultObject (generated_id env) (sentiment analysis)
                       (confidence analysis)
                       (max_credits row - (credits_used row + 1)))
         200,
       st2,
       if update_credits_fails env then ["Failed to update credits:"] else []).
Proof.
  intros Hf Hne Hsel Hlt. enter.
  all: cbn [getProperty] in *; try discriminate Hf; rewrite Hf; cbn [truthy];
    rewrite (proj2 (String.eqb_neq _ _) Hne); cbn [negb];
    unfold creditsRead in Hsel; rewrite !Hsel; cbn [data error];
    destruct (credits_used row >=? max_credits row) eqn:E; try lia;
    unfold insertFeedback, updateCreditsUsed;
    destruct (insert_feedback_fails env); cbn [error data]; try reflexivity;
    destruct (update_credits_fails env); reflexivity.
Qed.

End Submission.

(** ** The paths of the handler *)

Lemma selectCreditsSingle_cases (env : Env) (st : Store) :
  (exists row, creditsRead env st row)
  \/ (selectCreditsSingle env st = mkQueryResult None true
      /\ forall row, ~ creditsRead env st row).
Proof.
  unfold creditsRead, selectCreditsSingle.
  destruct (select_credits_fails env); [right; split; [reflexivity | discriminate]|].
  destruct (credits st) as [|r [|r' l]].
  - right; split; [reflexivity | discriminate].
  - left. now exists r.
  - right; split; [reflexivity | discriminate].
Qed.

(** The handler takes one of these paths, whatever the request. *)
Lemma handler_handles (env : Env) (req : Request) (st : Store) :
  handles env req st (handler env req st).
Proof.
  destruct (String.eqb (method req) "OPTIONS") eqn:Hm.
  { unfold handler. rewrite Hm. apply handles_preflight. now apply String.eqb_eq. }
  apply String.eqb_neq in Hm.
  destruct (json_body req) as [parsed|] eqn:Hb.
  2:{ unfold handler, tryBlock.
      rewrite (proj2 (String.eqb_neq _ _) Hm), Hb.
      apply handles_unparsed; [exact Hm | now left]. }
  destruct (Json_eq_null parsed) as [-> | Hn].
  { unfold handler, tryBlock.
    rewrite (proj2 (String.eqb_neq _ _) Hm), Hb.
    apply handles_unparsed; [exact Hm | now right]. }
  destruct (truthy (getProperty "feedback_text" parsed)) eqn:Ht.
  2:{ rewrite (handler_falsy_text env req st parsed Hm Hb Hn Ht).
      now apply handles_falsy_text with parsed. }
  destruct (selectCreditsSingle_cases env st) as [[row Hsel] | [Hsel Hnone]].
  2:{ rewrite (handler_credits_unreadable env req st parsed Hm Hb Hn Ht);
        [|left; now rewrite Hsel].
      now apply handles_unreadable with parsed. }
  destruct (Z_lt_ge_dec (credits_used row) (max_credits row)) as [Hlt | Hge].
  2:{ rewrite (handler_credits_exhausted env req st parsed Hm Hb Hn row Ht Hsel Hge).
      now apply handles_exhausted with parsed row. }
  destruct (getProperty "feedback_text" parsed) as [[| | |text| |]|] eqn:Hf;
    try discriminate Ht.
  3:{ assert (Hne : text <> "").
      { intros ->. discriminate Ht. }
      rewrite (handler_classifies env req st parsed Hm Hb Hn row text Hf Hne Hsel Hlt).
      apply creditsRead_inv in Hsel as Hsel'. destruct Hsel' as [_ Hc].
      unfold insertFeedback, updateCreditsUsed.
      destruct (insert_feedback_fails env) eqn:Hi.
      - now apply handles_insert_failed with parsed row text.
      - pose proof (handles_stored env req st parsed row text
                      Hm Hb Hf Hne Hsel Hlt Hi) as H.
        destruct (update_credits_fails env) eqn:Hu; cbn [credits feedback];
          rewrite Hc; cbn [map]; rewrite ?String.eqb_refl; exact H. }
  all: assert (Hns : forall text,
                  getProperty "feedback_text" parsed <> Some (JString text))
         by (intros text'; rewrite Hf; discriminate);
    pose proof (handles_not_a_string env req st parsed row
                  Hm Hb Hn ltac:(now rewrite Hf) Hns Hsel Hlt) as Hthrown;
    unfold handler, tryBlock;
    rewrite (proj2 (String.eqb_neq _ _) Hm), Hb;
    destruct parsed; try (contradiction Hn; reflexivity);
    cbn [getProperty] in *; try discriminate Hf;
    rewrite Hf; cbn [truthy negb] in *; try rewrite Ht; cbn [negb];
    unfold creditsRead in Hsel; rewrite !Hsel; cbn [data error];
    destruct (credits_used row >=? max_credits row) eqn:E; try lia;
    exact Hthrown.
Qed.

(** ** The credit gate and the answers of the endpoint *)

(** A record is inserted only after the gate has read a counter with a
    credit left. *)
Lemma insertion_requires_credit (env : Env) (req : Request) (st : Store) :
  feedback (store_of (handler env req st)) <> feedback st ->
  exists row, creditsRead env st row /\ credits_used row < max_credits row.
Proof.
  intros Hchanged.
  pose proof (handler_handles env req st) as H.
  inversion H as [ Hm Heq | Hm Hb Heq | parsed Hm Hb Hn Ht Heq
                 | parsed Hm Hb Hn Ht Hno Heq
                 | parsed row Hm Hb Hn Ht Hsel Hge Heq
                 | parsed row Hm Hb Hn Ht Hns Hsel Hlt Heq
                 | parsed row text Hm Hb Hf Hsel Hlt Hi Heq
                 | parsed row text Hm Hb Hf Hne Hsel Hlt Hi Heq ];
    rewrite <- Heq in Hchanged; cbn in Hchanged;
    try (contradiction Hchanged; reflexivity);
    now exists row.
Qed.

(** C3. When the counter that the gate reads has [credits_used >=
    max_credits], no request changes the store, so no feedback record is
    created whatever the store would do with an insertion, and a
    submission (a request with a text) is answered with the rate-limit
    error, status 429. *)
Theorem exhausted_counter_rejects
        (env : Env) (req : Request) (st : Store) (row : CreditsRow) :
  creditsRead env st row ->
  credits_used row >= max_credits row ->
  store_of (handler env req st) = st
  /\ forall parsed,
       method req <> "OPTIONS" ->
       json_body req = Some parsed ->
       parsed <> JNull ->
       truthy (getProperty "feedback_text" parsed) = true ->
       handler env req st
       = (jsonResponse
            (ErrorObject "Credit limit reached. You have used all 5 credits.") 429,
          st, []).
Proof.
  intros Hrow Hge. split.
  - pose proof (handler_handles env req st) as H.
    inversion H as [ Hm Heq | Hm Hb Heq | parsed Hm Hb Hn Ht Heq
                   | parsed Hm Hb Hn Ht Hno Heq
                   | parsed row' Hm Hb Hn Ht Hsel Hge' Heq
                   | parsed row' Hm Hb Hn Ht Hns Hsel Hlt Heq
                   | parsed row' text Hm Hb Hf Hsel Hlt Hi Heq
                   | parsed row' text Hm Hb Hf Hne Hsel Hlt Hi Heq ];
      try reflexivity;
      unfold creditsRead in *; rewrite Hrow in Hsel;
      injection Hsel as <-; lia.
  - intros parsed Hm Hb Hn Ht.
    now apply handler_credits_exhausted with parsed row.
Qed.

Lemma exhausted_counter_rejects_witness :
  store_of (handler healthy (submit (JString "great")) exhaustedStore) = exhaustedStore
  /\ status (response_of (handler healthy (submit (JString "great")) exhaustedStore))
     = 429.
Proof.
  destruct (exhausted_counter_rejects healthy (submit (JString "great")) exhaustedStore
              {| credits_id := "c-1"; credits_used := 5; max_credits := 5 |})
    as [Hstore Hanswer].
  - reflexivity.
  - simpl; lia.
  - split; [exact Hstore|].
    rewrite (Hanswer (JObject [("feedback_text", JString "great")])); try reflexivity;
      discriminate.
Defined.

(** C6. A request answered with status 200, the preflight apart, passed
    the gate on the counter row read before it and stored its record, and
    the answer reports [credits_remaining = max_credits - (credits_used + 1)]
    of that row. *)
Theorem success_reports_remaining (env : Env) (req : Request) (st : Store) :
  method req <> "OPTIONS" ->
  status (response_of (handler env req st)) = 200 ->
  exists row text,
    creditsRead env st row
    /\ credits_used row < max_credits row
    /\ feedback (store_of (handler env req st))
       = (feedback st ++ [storedRow env text])%list
    /\ body (response_of (handler env req st))
       = BodyJson
           (ResultObject (generated_id env)
                         (sentiment (analyzeSentiment text))
                         (confidence (analyzeSentiment text))
                         (max_credits row - (credits_used row + 1))).
Proof.
  intros Hpost Hok.
  pose proof (handler_handles env req st) as H.
  inversion H as [ Hm Heq | Hm Hb Heq | parsed Hm Hb Hn Ht Heq
                 | parsed Hm Hb Hn Ht Hno Heq
                 | parsed row Hm Hb Hn Ht Hsel Hge Heq
                 | parsed row Hm Hb Hn Ht Hns Hsel Hlt Heq
                 | parsed row text Hm Hb Hf Hsel Hlt Hi Heq
                 | parsed row text Hm Hb Hf Hne Hsel Hlt Hi Heq ];
    rewrite <- Heq in Hok; cbn in Hok; try discriminate Hok.
  - contradiction.
  - exists row, text. repeat split; assumption || reflexivity.
Qed.

Lemma success_reports_remaining_witness :
  exists row text,
    creditsRead healthy readyStore row
    /\ credits_used row < max_credits row
    /\ feedback (store_of (handler healthy (submit (JString "great")) readyStore))
       = (feedback readyStore ++ [storedRow healthy text])%list
    /\ body (response_of (handler healthy (submit (JString "great")) readyStore))
       = BodyJson
           (ResultObject (generated_id healthy)
                         (sentiment (analyzeSentiment text))
                         (confidence (analyzeSentiment text))
                         (max_credits row - (credits_used row + 1))).
Proof.
  apply (success_reports_remaining healthy (submit (JString "great")) readyStore).
  - discriminate.
  - vm_compute; reflexivity.
Defined.

(** C7. When the record has been stored and the write that increments the
    counter fails, the endpoint still answers with status 200 and the
    classification (identifier, sentiment, confidence, remaining credits);
    the failure is logged and the counter keeps its value. *)
Theorem increment_failure_tolerated
        (env : Env) (req : Request) (st : Store)
        (parsed : Json) (row : CreditsRow) (text : string) :
  method req <> "OPTIONS" ->
  json_body req = Some parsed ->
  getProperty "feedback_text" parsed = Some (JString text) ->
  text <> "" ->
  creditsRead env st row ->
  credits_used row < max_credits row ->
  insert_feedback_fails env = false ->
  update_credits_fails env = true ->
  handler env req st
  = ({| body := BodyJson
                  (ResultObject (generated_id env)
                                (sentiment (analyzeSentiment text))
                                (confidence (analyzeSentiment text))
                                (max_credits row - (credits_used row + 1)));
        status := 200;
        headers := jsonHeaders |},
     {| credits := credits st;
        feedback := (feedback st ++ [storedRow env text])%list |},
     ["Failed to update credits:"]).
Proof.
  intros Hm Hb Hf Hne Hsel Hlt Hi Hu.
  assert (Hn : parsed <> JNull) by (intros ->; discriminate Hf).
  rewrite (handler_classifies env req st parsed Hm Hb Hn row text Hf Hne Hsel Hlt).
  unfold insertFeedback, updateCreditsUsed. rewrite Hi, Hu. reflexivity.
Qed.

Lemma increment_failure_tolerated_witness :
  handler updateRefused (submit (JString "This is great and awesome")) readyStore
  = (jsonResponse (ResultObject "f-1" positive 0.8%float 2) 200,
     {| credits := credits readyStore;
        feedback := [{| feedback_id := "f-1";
                        feedback_text := "This is great and awesome";
                        feedback_sentiment := positive;
                        confidence_score := 0.8%float |}] |},
     ["Failed to update credits:"]).
Proof.
  rewrite (increment_failure_tolerated
             updateRefused (submit (JString "This is great and awesome")) readyStore
             (JObject [("feedback_text", JString "This is great and awesome")])
             {| credits_id := "c-1"; credits_used := 2; max_credits := 5 |}
             "This is great and awesome");
    try reflexivity; discriminate.
Defined.

(** C8, as amended. For a request whose body is JSON other than [null],
    each refusal is answered with the status the specification assigns it,
    in a JSON object with an [error] member: 400 when the text is missing
    from the body, 429 when the credits are exhausted, 500 when the counter
    cannot be read and 500 when the insertion fails; none of them changes
    the store. *)
Theorem refusal_statuses
        (why : Refusal) (env : Env) (req : Request) (st : Store) (parsed : Json) :
  method req <> "OPTIONS" ->
  json_body req = Some parsed ->
  parsed <> JNull ->
  due why env st parsed ->
  handler env req st
  = ({| body := BodyJson (ErrorObject (refusalMessage why));
        status := specStatus why;
        headers := jsonHeaders |},
     st, []).
Proof.
  intros Hm Hb Hn Hdue. destruct why; cbn [due] in Hdue.
  - apply (handler_falsy_text env req st parsed Hm Hb Hn).
    now rewrite Hdue.
  - destruct Hdue as [Ht [row [Hsel Hge]]].
    now apply (handler_credits_exhausted env req st parsed Hm Hb Hn row).
  - destruct Hdue as [Ht Hsel].
    now apply (handler_credits_unreadable env req st parsed Hm Hb Hn).
  - destruct Hdue as [text [row [Hf [Hne [Hsel [Hlt Hi]]]]]].
    rewrite (handler_classifies env req st parsed Hm Hb Hn row text Hf Hne Hsel Hlt).
    unfold insertFeedback. rewrite Hi. reflexivity.
Qed.

Lemma refusal_statuses_witness :
  status (response_of (handler insertRefused (submit (JString "bad")) readyStore))
  = 500
  /\ status (response_of
               (handler healthy
                        {| method := "POST"; json_body := Some (JObject []) |}
                        readyStore))
     = 400.
Proof.
  split.
  - rewrite (refusal_statuses InsertFailed insertRefused (submit (JString "bad"))
               readyStore (JObject [("feedback_text", JString "bad")]));
      try reflexivity; try discriminate.
    exists "bad", {| credits_id := "c-1"; credits_used := 2; max_credits := 5 |}.
    repeat split; try reflexivity; try discriminate.
  - rewrite (refusal_statuses MissingText healthy
               {| method := "POST"; json_body := Some (JObject []) |}
               readyStore (JObject []));
      try reflexivity; discriminate.
Defined.

(** C8 as first worded fails: a body that is [null], and a body that is
    empty or not JSON, have no text field, and both are answered by the
    [catch] clause with status 500, not 400. *)
Lemma missing_text_answered_500 :
  (textFieldMissing nullBodyRequest
   /\ response_of (handler healthy nullBodyRequest readyStore)
      = jsonResponse (ErrorObject "Internal server error") 500)
  /\ (textFieldMissing unparsedRequest
      /\ response_of (handler healthy unparsedRequest readyStore)
         = jsonResponse (ErrorObject "Internal server error") 500)
  /\ ~ (forall env req st,
          method req <> "OPTIONS" ->
          textFieldMissing req ->
          status (response_of (handler env req st)) = 400).
Proof.
  split; [split; reflexivity|].
  split; [split; [exact I | reflexivity]|].
  intros Hall.
  assert (H : status (response_of (handler healthy nullBodyRequest readyStore)) = 400)
    by (apply Hall; [discriminate | reflexivity]).
  vm_compute in H. discriminate H.
Qed.

(** The statuses of the endpoint are 200, 400, 429 and 500, and an answer
    other than 200 carries a JSON object with an [error] member. *)
Lemma handler_statuses (env : Env) (req : Request) (st : Store) :
  let r := response_of (handler env req st) in
  status r = 200
  \/ (In (status r) [400; 429; 500]
      /\ exists message, body r = BodyJson (ErrorObject message)).
Proof.
  pose proof (handler_handles env req st) as H.
  inversion H; cbn; try (left; reflexivity); right; split; eauto; cbn; tauto.
Qed.

(** * Further properties of the handler *)

Ltac handler_paths H :=
  inversion H as [ Hm Heq | Hm Hb Heq | parsed Hm Hb Hn Ht Heq
                 | parsed Hm Hb Hn Ht Hno Heq
                 | parsed row Hm Hb Hn Ht Hsel Hge Heq
                 | parsed row Hm Hb Hn Ht Hns Hsel Hlt Heq
                 | parsed row text Hm Hb Hf Hsel Hlt Hi Heq
                 | parsed row text Hm Hb Hf Hne Hsel Hlt Hi Heq ].

Lemma creditsRead_functional (env : Env) (st : Store) (row row' : CreditsRow) :
  creditsRead env st row -> creditsRead env st row' -> row = row'.
Proof. unfold creditsRead. intros H H'. rewrite H in H'. now injection H'. Qed.

Lemma text_not_null (parsed : Json) (v : Json) :
  getProperty "feedback_text" parsed = Some v -> parsed <> JNull.
Proof. intros H ->. discriminate H. Qed.

Lemma text_truthy (parsed : Json) (text : string) :
  getProperty "feedback_text" parsed = Some (JString text) ->
  text <> "" ->
  truthy (getProperty "feedback_text" parsed) = true.
Proof.
  intros -> Hne. cbn. now rewrite (proj2 (String.eqb_neq _ _) Hne).
Qed.

(** The path that stores: the answer, the store and the log. *)
Lemma handler_stored
      (env : Env) (req : Request) (st : Store)
      (parsed : Json) (row : CreditsRow) (text : string) :
  method req <> "OPTIONS" ->
  json_body req = Some parsed ->
  getProperty "feedback_text" parsed = Some (JString text) ->
  text <> "" ->
  creditsRead env st row ->
  credits_used row < max_credits row ->
  insert_feedback_fails env = false ->
  handler env req st
  = (resultResponse env row text,
     {| credits := if update_credits_fails env then [row] else [incremented row];
        feedback := (feedback st ++ [storedRow env text])%list |},
     if update_credits_fails env then ["Failed to update credits:"] else []).
Proof.
  intros Hm Hb Hf Hne Hsel Hlt Hi.
  rewrite (handler_classifies env req st parsed Hm Hb (text_not_null _ _ Hf)
             row text Hf Hne Hsel Hlt).
  apply creditsRead_inv in Hsel as [_ Hc].
  unfold insertFeedback, updateCreditsUsed. rewrite Hi.
  destruct (update_credits_fails env); cbn [credits feedback];
    rewrite Hc; cbn [map]; rewrite ?String.eqb_refl; reflexivity.
Qed.

Lemma answer_shape (env : Env) (req : Request) (st : Store) :
  (method req = "OPTIONS"
   /\ response_of (handler env req st) = preflightResponse)
  \/ (method req <> "OPTIONS"
      /\ exists payload code,
           response_of (handler env req st) = jsonResponse payload code).
Proof.
  pose proof (handler_handles env req st) as H.
  handler_paths H; cbn [response_of fst];
    first [ left; split; [assumption | reflexivity]
          | right; split; [assumption | eexists; eexists; reflexivity] ].
Qed.

(** X1. Every answer carries the two CORS headers; every answer but the
    one to a preflight is a JSON object sent as [application/json]. *)
Theorem answers_carry_cors (env : Env) (req : Request) (st : Store) :
  let r := response_of (handler env req st) in
  incl corsHeaders (headers r)
  /\ (method req <> "OPTIONS" ->
      headers r = jsonHeaders /\ exists payload, body r = BodyJson payload).
Proof.
  intros r. subst r.
  destruct (answer_shape env req st) as [[Hm ->] | [Hm [payload [code ->]]]].
  - split; [apply incl_refl | intros Hpost; contradiction].
  - split.
    + cbn [headers jsonResponse]. unfold jsonHeaders. apply incl_appl, incl_refl.
    + intros _. split; [reflexivity | now exists payload].
Qed.

(** X2. Status 400 is the answer exactly to a request, not a preflight,
    whose body is JSON other than [null] with a falsy [feedback_text]:
    absent, [null], [false], a zero, or the empty string.  The store and
    its state play no part. *)
Theorem status_400_iff (env : Env) (req : Request) (st : Store) :
  status (response_of (handler env req st)) = 400
  <-> (method req <> "OPTIONS"
       /\ exists parsed,
            json_body req = Some parsed /\ parsed <> JNull
            /\ truthy (getProperty "feedback_text" parsed) = false).
Proof.
  split.
  - intros Hs. pose proof (handler_handles env req st) as H.
    handler_paths H; rewrite <- Heq in Hs; cbn in Hs; try discriminate Hs.
    split; [exact Hm | now exists parsed].
  - intros [Hm [parsed [Hb [Hn Ht]]]].
    now rewrite (handler_falsy_text env req st parsed Hm Hb Hn Ht).
Qed.

(** X3. Status 429 is the answer exactly to a request with a truthy
    [feedback_text], of whatever type, when the counter can be read and has
    [credits_used >= max_credits]. *)
Theorem status_429_iff (env : Env) (req : Request) (st : Store) :
  status (response_of (handler env req st)) = 429
  <-> (method req <> "OPTIONS"
       /\ exists parsed row,
            json_body req = Some parsed /\ parsed <> JNull
            /\ truthy (getProperty "feedback_text" parsed) = true
            /\ creditsRead env st row
            /\ credits_used row >= max_credits row).
Proof.
  split.
  - intros Hs. pose proof (handler_handles env req st) as H.
    handler_paths H; rewrite <- Heq in Hs; cbn in Hs; try discriminate Hs.
    split; [exact Hm | now exists parsed, row].
  - intros [Hm [parsed [row [Hb [Hn [Ht [Hsel Hge]]]]]]].
    now rewrite (handler_credits_exhausted env req st parsed Hm Hb Hn row Ht Hsel Hge).
Qed.

(** X4. The generic answer "Internal server error" is given exactly when
    the body is not JSON, or is [null], or carries a truthy [feedback_text]
    that is not a string while the counter has a credit left: the text is
    looked at only after the gate, so such a request gets 429 once the
    credits are used up. *)
Theorem generic_error_iff (env : Env) (req : Request) (st : Store) :
  body (response_of (handler env req st))
  = BodyJson (ErrorObject "Internal server error")
  <-> (method req <> "OPTIONS"
       /\ (json_body req = None
           \/ json_body req = Some JNull
           \/ exists parsed row,
                json_body req = Some parsed /\ parsed <> JNull
                /\ truthy (getProperty "feedback_text" parsed) = true
                /\ (forall text,
                       getProperty "feedback_text" parsed <> Some (JString text))
                /\ creditsRead env st row
                /\ credits_used row < max_credits row)).
Proof.
  split.
  - intros Hs. pose proof (handler_handles env req st) as H.
    handler_paths H; rewrite <- Heq in Hs; cbn in Hs; try discriminate Hs.
    + split; [exact Hm | tauto].
    + split; [exact Hm|]. right; right. now exists parsed, row.
  - intros [Hpost Hcases].
    pose proof (handler_handles env req st) as H.
    handler_paths H; try reflexivity; exfalso; try contradiction;
      destruct Hcases as [E | [E | [p [r [E [Hn' [Ht' [Hns' [Hr' Hlt']]]]]]]]];
      rewrite Hb in E; try discriminate E;
      try (injection E as ->; first [now contradiction Hn | discriminate Hf]);
      injection E as <-;
      first [ congruence
            | now eapply Hno, Hr'
            | rewrite (creditsRead_functional _ _ _ _ Hsel Hr') in *; lia
            | now apply (Hns' text) ].
Qed.

(** X5. A request other than a preflight is answered with status 200
    exactly when it carries a string other than the empty one, the counter
    can be read and has a credit left, and the insertion succeeds; whether
    the counter could then be written plays no part. *)
Theorem status_200_iff (env : Env) (req : Request) (st : Store) :
  method req <> "OPTIONS" ->
  (status (response_of (handler env req st)) = 200
   <-> exists text row,
         carriesText req text
         /\ creditsRead env st row
         /\ credits_used row < max_credits row
         /\ insert_feedback_fails env = false).
Proof.
  intros Hpost. split.
  - intros Hs. pose proof (handler_handles env req st) as H.
    handler_paths H; rewrite <- Heq in Hs; cbn in Hs; try discriminate Hs.
    + contradiction.
    + exists text, row. repeat split; try assumption. now exists parsed.
  - intros [text [row [[_ [parsed [Hb [Hf Hne]]]] [Hsel [Hlt Hi]]]]].
    now rewrite (handler_stored env req st parsed row text Hpost Hb Hf Hne Hsel Hlt Hi).
Qed.

Lemma status_200_iff_witness :
  status (response_of (handler updateRefused (submit (JString "poor")) readyStore))
  = 200.
Proof.
  apply (status_200_iff updateRefused (submit (JString "poor")) readyStore);
    [discriminate|].
  exists "poor", {| credits_id := "c-1"; credits_used := 2; max_credits := 5 |}.
  repeat split; try reflexivity; try discriminate.
  exists (JObject [("feedback_text", JString "poor")]).
  repeat split; try reflexivity; discriminate.
Defined.

(** X6. What one request does to the store: nothing, or it appends one
    feedback record, that of its text, and leaves the counter row as it
    was or with [credits_used] raised by one.  No record is ever changed
    or removed, and the identifier and [max_credits] of the counter stay. *)
Theorem store_effect (env : Env) (req : Request) (st : Store) :
  let st' := store_of (handler env req st) in
  st' = st
  \/ exists text row,
       carriesText req text
       /\ creditsRead env st row
       /\ credits_used row < max_credits row
       /\ feedback st' = (feedback st ++ [storedRow env text])%list
       /\ (credits st' = [row] /\ update_credits_fails env = true
           \/ credits st' = [incremented row] /\ update_credits_fails env = false).
Proof.
  pose proof (handler_handles env req st) as H.
  handler_paths H; cbn; try (left; reflexivity).
  right. exists text, row. repeat split; try assumption.
  - now exists parsed.
  - destruct (update_credits_fails env); [left | right]; now split.
Qed.

(** X7. A feedback record is stored exactly when the request, not a
    preflight, is answered with status 200: no answer of success without
    its record, no record behind an answer of failure. *)
Theorem record_iff_success (env : Env) (req : Request) (st : Store) :
  method req <> "OPTIONS" ->
  (feedback (store_of (handler env req st)) <> feedback st
   <-> status (response_of (handler env req st)) = 200).
Proof.
  intros Hpost. pose proof (handler_handles env req st) as H.
  handler_paths H; cbn; try contradiction;
    try (split; [intros Hc; now contradiction Hc | discriminate]).
  split; [reflexivity|]. intros _ Hc.
  apply (f_equal (@List.length FeedbackRow)) in Hc.
  rewrite length_app in Hc. cbn in Hc. lia.
Qed.

Lemma record_iff_success_witness :
  status (response_of (handler healthy (submit (JString "poor")) readyStore)) = 200
  /\ feedback (store_of (handler healthy (submit (JString "poor")) readyStore))
     <> feedback readyStore.
Proof.
  split; [vm_compute; reflexivity|].
  apply (record_iff_success healthy (submit (JString "poor")) readyStore);
    [discriminate | vm_compute; reflexivity].
Defined.

(** X8. An answer of success never reports a negative number of remaining
    credits. *)
Theorem remaining_not_negative
        (env : Env) (req : Request) (st : Store)
        (id : string) (s : Sentiment) (c : float) (remaining : Z) :
  body (response_of (handler env req st)) = BodyJson (ResultObject id s c remaining) ->
  0 <= remaining.
Proof.
  intros Hbody. pose proof (handler_handles env req st) as H.
  handler_paths H; rewrite <- Heq in Hbody; cbn in Hbody; try discriminate Hbody.
  injection Hbody as _ _ _ <-. lia.
Qed.

Lemma remaining_not_negative_witness :
  body (response_of (handler healthy (submit (JString "poor")) readyStore))
  = BodyJson (ResultObject "f-1" negative 0.7%float 2)
  /\ 0 <= 2.
Proof.
  assert (Hbody : body (response_of (handler healthy (submit (JString "poor"))
                                             readyStore))
                  = BodyJson (ResultObject "f-1" negative 0.7%float 2))
    by (vm_compute; reflexivity).
  split; [exact Hbody|].
  exact (remaining_not_negative healthy (submit (JString "poor")) readyStore
           "f-1" negative 0.7%float 2 Hbody).
Defined.

(** ** Requests in sequence *)

Lemma serve_cons (env : Env) (req : Request) (rest : list (Env * Request))
      (st : Store) :
  serve ((env, req) :: rest) st
  = (response_of (handler env req st)
       :: fst (serve rest (store_of (handler env req st))),
     snd (serve rest (store_of (handler env req st)))).
Proof.
  cbn [serve]. destruct (handler env req st) as [[r st1] log].
  cbn [response_of store_of fst snd]. now destruct (serve rest st1).
Qed.

(** One request on a store with one counter row. *)
Lemma handler_keeps_counter (env : Env) (req : Request) (st : Store)
      (row : CreditsRow) :
  credits st = [row] ->
  credits_used row <= max_credits row ->
  exists row' added,
    credits (store_of (handler env req st)) = [row']
    /\ credits_id row' = credits_id row
    /\ max_credits row' = max_credits row
    /\ credits_used row <= credits_used row' <= max_credits row
    /\ feedback (store_of (handler env req st)) = (feedback st ++ added)%list
    /\ credits_used row' - credits_used row <= Z.of_nat (List.length added).
Proof.
  intros Hc Hle.
  destruct (store_effect env req st) as [-> | [text [row0 [_ [Hsel [Hlt [Hf Hcr]]]]]]].
  - exists row, []. rewrite app_nil_r. cbn. repeat split; try assumption; lia.
  - apply creditsRead_inv in Hsel as [_ Hc0]. rewrite Hc in Hc0.
    injection Hc0 as <-.
    destruct Hcr as [[-> _] | [-> _]].
    + exists row, [storedRow env text]. cbn. repeat split; try assumption; lia.
    + exists (incremented row), [storedRow env text].
      cbn. repeat split; try assumption; lia.
Qed.

(** X9. Over any requests, handled one after the other on a store whose
    counter row has [credits_used <= max_credits]: the counter stays one
    row with its identifier and [max_credits], [credits_used] never goes
    down and never passes [max_credits], the feedback records that were
    there stay in place, and the counter is raised by no more than the
    number of records added. *)
Theorem serve_keeps_counter
        (requests : list (Env * Request)) (st : Store) (row : CreditsRow) :
  credits st = [row] ->
  credits_used row <= max_credits row ->
  exists row' added,
    credits (snd (serve requests st)) = [row']
    /\ credits_id row' = credits_id row
    /\ max_credits row' = max_credits row
    /\ credits_used row <= credits_used row' <= max_credits row
    /\ feedback (snd (serve requests st)) = (feedback st ++ added)%list
    /\ credits_used row' - credits_used row <= Z.of_nat (List.length added).
Proof.
  revert st row. induction requests as [|[env req] rest IH]; intros st row Hc Hle.
  - exists row, []. cbn. rewrite app_nil_r. repeat split; try assumption; lia.
  - rewrite serve_cons. cbn [snd].
    destruct (handler_keeps_counter env req st row Hc Hle)
      as [row1 [added1 [Hc1 [Hid1 [Hmax1 [Hused1 [Hf1 Hlen1]]]]]]].
    destruct (IH (store_of (handler env req st)) row1 Hc1 ltac:(lia))
      as [row2 [added2 [Hc2 [Hid2 [Hmax2 [Hused2 [Hf2 Hlen2]]]]]]].
    exists row2, (added1 ++ added2)%list.
    rewrite Hc2, Hf2, Hf1, <- app_assoc, length_app.
    repeat split; try congruence; lia.
Qed.

Lemma serve_keeps_counter_witness :
  exists row' added,
    credits (snd (serve [(healthy, submit (JString "good"));
                         (updateRefused, submit (JString "bad"));
                         (healthy, submit JNull)]
                        (migratedStore "c-1")))
    = [row']
    /\ credits_id row' = "c-1"
    /\ max_credits row' = 5
    /\ 0 <= credits_used row' <= 5
    /\ feedback (snd (serve [(healthy, submit (JString "good"));
                             (updateRefused, submit (JString "bad"));
                             (healthy, submit JNull)]
                            (migratedStore "c-1")))
       = ([] ++ added)%list
    /\ credits_used row' - 0 <= Z.of_nat (List.length added).
Proof.
  apply (serve_keeps_counter
           [(healthy, submit (JString "good"));
            (updateRefused, submit (JString "bad"));
            (healthy, submit JNull)]
           (migratedStore "c-1")
           {| credits_id := "c-1"; credits_used := 0; max_credits := 5 |}).
  - reflexivity.
  - simpl; lia.
Defined.

(** X10. The cap over a run of submissions, when the store does all it is
    asked: the first [max_credits - credits_used] of them are answered with
    status 200 and every later one with 429; as many records are stored as
    there were credits to use, and the counter ends raised by that number.
    From the store of the migration, five submissions are served. *)
Theorem serve_caps
        (requests : list (Env * Request)) (st : Store) (row : CreditsRow) :
  credits st = [row] ->
  allSubmissions (fun env => storeAnswers env /\ update_credits_fails env = false)
                 requests ->
  let n := List.length requests in
  let served := Nat.min n (creditsLeft row) in
  map status (fst (serve requests st))
  = (repeat 200 served ++ repeat 429 (n - served))%list
  /\ credits (snd (serve requests st))
     = [{| credits_id := credits_id row;
           credits_used := credits_used row + Z.of_nat served;
           max_credits := max_credits row |}]
  /\ List.length (feedback (snd (serve requests st)))
     = (List.length (feedback st) + served)%nat.
Proof.
  revert st row. induction requests as [|[env req] rest IH]; intros st row Hc Hall.
  - cbn. rewrite Hc, Z.add_0_r. destruct row. repeat split; cbn; lia.
  - inversion Hall as [|er rest' [[[Hs Hi] Hu] [text [Hm [parsed [Hb [Hf Hne]]]]]] Hrest];
      subst. cbn [fst snd] in *.
    assert (Hsel : creditsRead env st row) by (now apply creditsRead_inv).
    rewrite serve_cons. cbn [fst snd map List.length].
    destruct (Z_lt_ge_dec (credits_used row) (max_credits row)) as [Hlt | Hge].
    + rewrite (handler_stored env req st parsed row text Hm Hb Hf Hne Hsel Hlt Hi).
      rewrite Hu. cbn [response_of store_of fst snd].
      destruct (IH {| credits := [incremented row];
                      feedback := (feedback st ++ [storedRow env text])%list |}
                   (incremented row) eq_refl Hrest) as [Hst [Hcr Hlen]].
      cbn [feedback] in Hlen. rewrite length_app in Hlen. cbn [List.length] in Hlen.
      assert (Hleft : creditsLeft row = S (creditsLeft (incremented row))).
      { unfold creditsLeft, incremented. cbn. lia. }
      rewrite Hleft.
      change (Nat.min (S (List.length rest)) (S (creditsLeft (incremented row))))
        with (S (Nat.min (List.length rest) (creditsLeft (incremented row)))).
      rewrite Hst, Hcr. cbn [repeat app Nat.sub status resultResponse jsonResponse].
      repeat split.
      * unfold incremented. cbn. do 2 f_equal. lia.
      * lia.
    + rewrite (handler_credits_exhausted env req st parsed Hm Hb
                 (text_not_null _ _ Hf) row (text_truthy _ _ Hf Hne) Hsel Hge).
      cbn [response_of store_of fst snd].
      destruct (IH st row Hc Hrest) as [Hst [Hcr Hlen]].
      assert (Hleft : creditsLeft row = 0%nat) by (unfold creditsLeft; lia).
      rewrite Hleft in *. rewrite Nat.min_0_r in *.
      rewrite Hst, Hcr, Hlen. cbn [repeat app Nat.sub status jsonResponse].
      rewrite Nat.sub_0_r. repeat split.
Qed.

Lemma serve_caps_witness :
  map status
      (fst (serve (repeat (healthy, submit (JString "good")) 7) (migratedStore "c-1")))
  = [200; 200; 200; 200; 200; 429; 429]
  /\ credits (snd (serve (repeat (healthy, submit (JString "good")) 7)
                         (migratedStore "c-1")))
     = [{| credits_id := "c-1"; credits_used := 5; max_credits := 5 |}]
  /\ List.length
       (feedback (snd (serve (repeat (healthy, submit (JString "good")) 7)
                             (migratedStore "c-1"))))
     = 5%nat.
Proof.
  apply (serve_caps (repeat (healthy, submit (JString "good")) 7)
                    (migratedStore "c-1")
                    {| credits_id := "c-1"; credits_used := 0; max_credits := 5 |}).
  - reflexivity.
  - repeat constructor; try discriminate.
    all: exists "good"; split; [discriminate|].
    all: exists (JObject [("feedback_text", JString "good")]).
    all: repeat split; try reflexivity; discriminate.
Defined.

(** X11. When the store takes the records but refuses every write of the
    counter, the cap does not hold: every submission of a run is answered
    with status 200 and the same number of remaining credits, each stores
    its record, and the counter stays where it was. *)
Theorem serve_uncapped
        (requests : list (Env * Request)) (st : Store) (row : CreditsRow) :
  credits st = [row] ->
  credits_used row < max_credits row ->
  allSubmissions (fun env => storeAnswers env /\ update_credits_fails env = true)
                 requests ->
  Forall (fun r =>
            status r = 200
            /\ exists id s c,
                 body r
                 = BodyJson (ResultObject id s c
                               (max_credits row - (credits_used row + 1))))
         (fst (serve requests st))
  /\ credits (snd (serve requests st)) = [row]
  /\ List.length (feedback (snd (serve requests st)))
     = (List.length (feedback st) + List.length requests)%nat.
Proof.
  intros Hc Hlt. revert st Hc.
  induction requests as [|[env req] rest IH]; intros st Hc Hall.
  - cbn. repeat split; [constructor | assumption | lia].
  - inversion Hall as [|er rest' [[[Hs Hi] Hu] [text [Hm [parsed [Hb [Hf Hne]]]]]] Hrest];
      subst. cbn [fst snd] in *.
    assert (Hsel : creditsRead env st row) by (now apply creditsRead_inv).
    rewrite serve_cons. cbn [fst snd List.length].
    rewrite (handler_stored env req st parsed row text Hm Hb Hf Hne Hsel Hlt Hi).
    rewrite Hu. cbn [response_of store_of fst snd].
    destruct (IH {| credits := [row];
                    feedback := (feedback st ++ [storedRow env text])%list |}
                 eq_refl Hrest) as [Hst [Hcr Hlen]].
    cbn [feedback] in Hlen. rewrite length_app in Hlen. cbn [List.length] in Hlen.
    repeat split.
    + constructor; [|exact Hst].
      split; [reflexivity|]. now eexists _, _, _.
    + exact Hcr.
    + lia.
Qed.

Lemma serve_uncapped_witness :
  Forall (fun r =>
            status r = 200
            /\ exists id s c, body r = BodyJson (ResultObject id s c (5 - (4 + 1))))
         (fst (serve (repeat (updateRefused, submit (JString "good")) 3)
                     {| credits := [{| credits_id := "c-1"; credits_used := 4;
                                       max_credits := 5 |}];
                        feedback := [] |}))
  /\ credits (snd (serve (repeat (updateRefused, submit (JString "good")) 3)
                         {| credits := [{| credits_id := "c-1"; credits_used := 4;
                                           max_credits := 5 |}];
                            feedback := [] |}))
     = [{| credits_id := "c-1"; credits_used := 4; max_credits := 5 |}]
  /\ List.length
       (feedback (snd (serve (repeat (updateRefused, submit (JString "good")) 3)
                             {| credits := [{| credits_id := "c-1"; credits_used := 4;
                                               max_credits := 5 |}];
                                feedback := [] |})))
     = 3%nat.
Proof.
  apply (serve_uncapped (repeat (updateRefused, submit (JString "good")) 3)
           {| credits := [{| credits_id := "c-1"; credits_used := 4;
                             max_credits := 5 |}];
              feedback := [] |}
           {| credits_id := "c-1"; credits_used := 4; max_credits := 5 |}).
  - reflexivity.
  - simpl; lia.
  - repeat constructor; try discriminate.
    all: exists "good"; split; [discriminate|].
    all: exists (JObject [("feedback_text", JString "good")]).
    all: repeat split; try reflexivity; discriminate.
Defined.

(** One request on a store whose [credits] table does not hold exactly one
    row. *)
Lemma handler_without_counter (env : Env) (req : Request) (st : Store) :
  List.length (credits st) <> 1%nat ->
  store_of (handler env req st) = st
  /\ status (response_of (handler env req st)) <> 429
  /\ (status (response_of (handler env req st)) = 200 -> method req = "OPTIONS").
Proof.
  intros Hlen.
  assert (Hnone : forall row, ~ creditsRead env st row).
  { intros row Hsel. apply creditsRead_inv in Hsel as [_ Hc].
    rewrite Hc in Hlen. now contradiction Hlen. }
  pose proof (handler_handles env req st) as H.
  handler_paths H; cbn;
    try (exfalso; now apply (Hnone row));
    repeat split; try discriminate; try (intros _; assumption);
    intros Hs; discriminate Hs.
Qed.

(** X12. While the [credits] table holds no row, or more than one, the
    counter cannot be read: no request changes the store, none is answered
    with 429, and only a preflight is answered with 200. *)
Theorem serve_without_counter (requests : list (Env * Request)) (st : Store) :
  List.length (credits st) <> 1%nat ->
  snd (serve requests st) = st
  /\ Forall2 (fun er r =>
                status r <> 429
                /\ (status r = 200 -> method (snd er) = "OPTIONS"))
             requests (fst (serve requests st)).
Proof.
  intros Hlen. induction requests as [|[env req] rest [IHst IHrs]].
  - split; [reflexivity | constructor].
  - rewrite serve_cons. cbn [fst snd].
    destruct (handler_without_counter env req st Hlen) as [Hst [H429 H200]].
    rewrite Hst. split; [exact IHst|].
    constructor; [now split | exact IHrs].
Qed.

Lemma serve_without_counter_witness :
  snd (serve [(healthy, submit (JString "good"))] {| credits := []; feedback := [] |})
  = {| credits := []; feedback := [] |}
  /\ Forall2 (fun er r =>
                status r <> 429
                /\ (status r = 200 -> method (snd er) = "OPTIONS"))
             [(healthy, submit (JString "good"))]
             (fst (serve [(healthy, submit (JString "good"))]
                         {| credits := []; feedback := [] |})).
Proof.
  apply (serve_without_counter [(healthy, submit (JString "good"))]
                               {| credits := []; feedback := [] |}).
  discriminate.
Defined.

(** * Further properties of the classifier *)

(** X13. The confidence takes four values only: 0.7 for [neutral] and for
    a side that won with one matched keyword, 0.8 with two, 0.9 with three
    and 0.95 with four or more; it is never below 0.7. *)
Theorem confidence_values (text : string) :
  let a := analyzeSentiment text in
  confidence a
  = match sentiment a with
    | neutral => 0.7%float
    | side =>
        nth (matchedCount (keywordsOf side) text)
            [0.6; 0.7; 0.8; 0.9]%float 0.95%float
    end
  /\ In (confidence a) [0.7; 0.8; 0.9; 0.95]%float
  /\ PrimFloat.leb 0.7%float (confidence a) = true.
Proof.
  pose proof (positiveScore_bounds text) as Hp.
  pose proof (negativeScore_bounds text) as Hn.
  rewrite positiveScore_count in Hp. rewrite negativeScore_count in Hn.
  assert (Hdecided :
            forall k, (0 < k <= 13)%nat ->
                      decidedConfidence (Z.of_nat k)
                      = nth k [0.6; 0.7; 0.8; 0.9]%float 0.95%float
                      /\ In (decidedConfidence (Z.of_nat k))
                            [0.7; 0.8; 0.9; 0.95]%float
                      /\ PrimFloat.leb 0.7%float (decidedConfidence (Z.of_nat k))
                         = true).
  { intros k Hk.
    do 14 (destruct k as [|k];
           [first [lia | vm_compute; repeat split; tauto]|]).
    lia. }
  cbv zeta.
  destruct (analyzeSentiment_cases text) as [[H E] | [[H E] | [H E]]];
    rewrite E; cbn [sentiment confidence keywordsOf].
  - apply Hdecided. lia.
  - apply Hdecided. lia.
  - repeat split. cbn. tauto.
Qed.

Lemma includes_embedded (s w pre post : string) :
  Js.includes s w = true -> Js.includes (pre ++ s ++ post) w = true.
Proof.
  rewrite !includes_iff. intros [a [b ->]].
  exists (pre ++ a), (b ++ post).
  induction pre as [|c pre IH]; cbn.
  - induction a as [|c a IH]; cbn; [|now rewrite IH].
    induction w as [|c w IH]; cbn; [reflexivity | now rewrite IH].
  - now rewrite IH.
Qed.

Lemma filter_length_mono {A : Type} (f g : A -> bool) (l : list A) :
  (forall x, f x = true -> g x = true) ->
  (List.length (filter f l) <= List.length (filter g l))%nat.
Proof.
  intros Hfg. induction l as [|x l IH]; cbn; [lia|].
  destruct (f x) eqn:Ef.
  - rewrite (Hfg x Ef). cbn. lia.
  - destruct (g x); cbn; lia.
Qed.

(** X14. Text written before or after a text lowers neither score: a
    keyword that matches keeps matching, whatever surrounds it. *)
Theorem scores_monotone (pre text post : string) :
  positiveScore text <= positiveScore (pre ++ text ++ post)
  /\ negativeScore text <= negativeScore (pre ++ text ++ post).
Proof.
  rewrite !positiveScore_count, !negativeScore_count.
  unfold matchedCount, matches.
  rewrite !toLowerCase_append.
  split; apply inj_le, filter_length_mono; intros w; apply includes_embedded.
Qed.

Lemma startsWith_length (s w : string) :
  Js.startsWith s w = true -> (String.length w <= String.length s)%nat.
Proof.
  revert s; induction w as [|a w IH]; intros s H; cbn; [lia|].
  destruct s as [|b s]; cbn in H; [discriminate|].
  apply andb_true_iff in H as [_ H]. apply IH in H. cbn. lia.
Qed.

Lemma includes_length (s w : string) :
  Js.includes s w = true -> (String.length w <= String.length s)%nat.
Proof.
  induction s as [|c s IH]; cbn; intros H.
  - rewrite orb_false_r in H. now apply startsWith_length in H.
  - apply orb_true_iff in H as [H | H].
    + now apply startsWith_length in H.
    + apply IH in H. lia.
Qed.

Lemma toLowerCase_length (s : string) :
  String.length (Js.toLowerCase s) = String.length s.
Proof. induction s as [|c s IH]; cbn; [reflexivity | now rewrite IH]. Qed.

(** X15. A text of fewer than three code units, the empty text among them,
    is [neutral] with confidence 0.7: no keyword is that short. *)
Theorem short_text_neutral (text : string) :
  (String.length text < 3)%nat ->
  analyzeSentiment text = {| sentiment := neutral; confidence := 0.7%float |}.
Proof.
  intros Hshort.
  assert (Hnone : forall words,
             forallb (fun w => (3 <=? String.length w)%nat) words = true ->
             matchedCount words text = 0%nat).
  { intros words Hwords. apply matchedCount_zero. intros w Hin.
    rewrite forallb_forall in Hwords. specialize (Hwords w Hin).
    apply Nat.leb_le in Hwords.
    destruct (matches text w) eqn:E; [|reflexivity].
    apply includes_length in E. rewrite toLowerCase_length in E. lia. }
  pose proof (Hnone positiveWords eq_refl) as Hp.
  pose proof (Hnone negativeWords eq_refl) as Hn.
  destruct (analyzeSentiment_cases text) as [[H E] | [[H E] | [H E]]];
    [lia | lia | exact E].
Qed.

Lemma short_text_neutral_witness :
  analyzeSentiment "ok" = {| sentiment := neutral; confidence := 0.7%float |}.
Proof. apply (short_text_neutral "ok"). simpl; lia. Defined.

(** * The page and the server *)

Lemma trimStart_empty (s : string) :
  Client.trimStart s = "" ->
  forall a, hasUnit a s = true -> Client.isWhiteSpace a = true.
Proof.
  induction s as [|c s IH]; cbn; intros H a Ha; [discriminate Ha|].
  destruct (Client.isWhiteSpace c) eqn:Ec; [|discriminate H].
  apply orb_true_iff in Ha as [Ha | Ha].
  - apply Ascii.eqb_eq in Ha. now subst a.
  - now apply IH.
Qed.

Lemma trimStart_head (s : string) (c : ascii) (rest : string) :
  Client.trimStart s = String c rest -> Client.isWhiteSpace c = false.
Proof.
  induction s as [|b s IH]; cbn; [discriminate|].
  destruct (Client.isWhiteSpace b) eqn:Eb; [exact IH|].
  intros H. injection H as <- _. exact Eb.
Qed.

(** [trim] leaves nothing only of a text of white space. *)
Lemma trim_empty (s : string) :
  Client.trim s = "" ->
  forall a, hasUnit a s = true -> Client.isWhiteSpace a = true.
Proof.
  unfold Client.trim. intros H.
  destruct (Client.trimStart s) as [|c rest] eqn:E.
  - now apply trimStart_empty.
  - apply trimStart_head in E. cbn in H. rewrite E in H.
    destruct (Client.trimEnd rest); discriminate H.
Qed.

Lemma trim_not_empty (s : string) : Client.trim s <> "" -> s <> "".
Proof. intros H ->. now apply H. Qed.

Lemma startsWith_first (s : string) (a : ascii) (w : string) :
  Js.startsWith s (String a w) = true -> hasUnit a s = true.
Proof.
  destruct s as [|b s]; cbn; [discriminate|].
  intros H. apply andb_true_iff in H as [H _].
  rewrite Ascii.eqb_sym in H. now rewrite H.
Qed.

Lemma includes_first (s : string) (a : ascii) (w : string) :
  Js.includes s (String a w) = true -> hasUnit a s = true.
Proof.
  induction s as [|b s IH]; intros H.
  - cbn in H. discriminate H.
  - change (Js.includes (String b s) (String a w))
      with (Js.startsWith (String b s) (String a w) || Js.includes s (String a w))
      in H.
    apply orb_true_iff in H as [H | H].
    + now apply startsWith_first in H.
    + cbn. rewrite (IH H). apply orb_true_r.
Qed.

Lemma lowerUnit_white (c : ascii) :
  Client.isWhiteSpace c = true -> Js.lowerUnit c = c.
Proof. destruct c as [[] [] [] [] [] [] [] []]; intros H; try discriminate H; reflexivity. Qed.

Lemma toLowerCase_white (s : string) :
  (forall a, hasUnit a s = true -> Client.isWhiteSpace a = true) ->
  Js.toLowerCase s = s.
Proof.
  induction s as [|c s IH]; cbn; intros H; [reflexivity|].
  rewrite lowerUnit_white, IH; [reflexivity | |].
  - intros a Ha. apply H. cbn. rewrite Ha. apply orb_true_r.
  - apply H. cbn. now rewrite Ascii.eqb_refl.
Qed.

(** A text that [trim] empties matches no keyword. *)
Lemma blank_text_neutral (text : string) :
  Client.trim text = "" ->
  analyzeSentiment text = {| sentiment := neutral; confidence := 0.7%float |}.
Proof.
  intros Hblank. pose proof (trim_empty text Hblank) as Hwhite.
  assert (Hnone : forall words,
             forallb (fun w => match w with
                               | String a _ => negb (Client.isWhiteSpace a)
                               | EmptyString => false
                               end) words = true ->
             matchedCount words text = 0%nat).
  { intros words Hwords. apply matchedCount_zero. intros w Hin.
    rewrite forallb_forall in Hwords. specialize (Hwords w Hin).
    destruct w as [|a w]; [discriminate Hwords|].
    apply negb_true_iff in Hwords.
    destruct (matches text (String a w)) eqn:E; [|reflexivity].
    unfold matches in E. rewrite (toLowerCase_white text Hwhite) in E.
    apply includes_first, Hwhite in E. congruence. }
  pose proof (Hnone positiveWords eq_refl) as Hp.
  pose proof (Hnone negativeWords eq_refl) as Hn.
  destruct (analyzeSentiment_cases text) as [[H E] | [[H E] | [H E]]];
    [lia | lia | exact E].
Qed.

(** What [analyzeFeedback] leaves when one of its guards stops the click:
    the state as it was with one more toast. *)
Lemma analyzeFeedback_blank (env : Env) (st : Client.State) (server : Store) :
  Client.trim (Client.feedback st) = "" ->
  Client.analyzeFeedback env st server
  = ({| Client.feedback := Client.feedback st;
        Client.isAnalyzing := Client.isAnalyzing st;
        Client.result := Client.result st;
        Client.credits := Client.credits st;
        Client.toasts := (Client.toasts st ++ [Client.EmptyFeedback])%list |},
     server).
Proof. intros H. unfold Client.analyzeFeedback. now rewrite H. Qed.

(** X16. The server takes what the page refuses.  On a text of white space
    only, [analyzeFeedback] shows "Empty feedback" and sends nothing: the
    page and the store stay as they were.  The handler, given a request
    with that same text, treats it as a text like any other: it is stored
    as [neutral] with confidence 0.7 and uses a credit. *)
Theorem blank_text_accepted
        (env : Env) (st : Client.State) (server : Store)
        (req : Request) (row : CreditsRow) :
  Client.trim (Client.feedback st) = "" ->
  carriesText req (Client.feedback st) ->
  creditsRead env server row ->
  credits_used row < max_credits row ->
  insert_feedback_fails env = false ->
  Client.analyzeFeedback env st server
  = ({| Client.feedback := Client.feedback st;
        Client.isAnalyzing := Client.isAnalyzing st;
        Client.result := Client.result st;
        Client.credits := Client.credits st;
        Client.toasts := (Client.toasts st ++ [Client.EmptyFeedback])%list |},
     server)
  /\ response_of (handler env req server)
     = jsonResponse
         (ResultObject (generated_id env) neutral 0.7%float
                       (max_credits row - (credits_used row + 1)))
         200
  /\ feedback (store_of (handler env req server))
     = (feedback server
        ++ [{| feedback_id := generated_id env;
               feedback_text := Client.feedback st;
               feedback_sentiment := neutral;
               confidence_score := 0.7%float |}])%list.
Proof.
  intros Hblank [Hm [parsed [Hb [Hf Hne]]]] Hsel Hlt Hi.
  split; [now apply analyzeFeedback_blank|].
  rewrite (handler_stored env req server parsed row _ Hm Hb Hf Hne Hsel Hlt Hi).
  cbn [response_of store_of fst snd feedback].
  unfold resultResponse, storedRow. rewrite (blank_text_neutral _ Hblank).
  split; reflexivity.
Qed.

Lemma blank_text_accepted_witness :
  Client.analyzeFeedback healthy (freshPage "   " 2 5) readyStore
  = ({| Client.feedback := "   ";
        Client.isAnalyzing := false;
        Client.result := None;
        Client.credits := {| Client.credits_used := 2; Client.max_credits := 5 |};
        Client.toasts := ([] ++ [Client.EmptyFeedback])%list |},
     readyStore)
  /\ response_of (handler healthy (submit (JString "   ")) readyStore)
     = jsonResponse (ResultObject "f-1" neutral 0.7%float (5 - (2 + 1))) 200
  /\ feedback (store_of (handler healthy (submit (JString "   ")) readyStore))
     = ([] ++ [{| feedback_id := "f-1";
                  feedback_text := "   ";
                  feedback_sentiment := neutral;
                  confidence_score := 0.7%float |}])%list.
Proof.
  apply (blank_text_accepted healthy (freshPage "   " 2 5) readyStore
           (submit (JString "   "))
           {| credits_id := "c-1"; credits_used := 2; max_credits := 5 |}).
  - reflexivity.
  - split; [discriminate|].
    exists (JObject [("feedback_text", JString "   ")]).
    repeat split; try reflexivity; discriminate.
  - reflexivity.
  - simpl; lia.
  - reflexivity.
Defined.

(** The request of the page carries its text. *)
Lemma invokeRequest_carries (feedback : string) :
  Client.trim feedback <> "" ->
  carriesText (Client.invokeRequest feedback) feedback.
Proof.
  intros H. split; [discriminate|].
  exists (JObject [("feedback_text", JString feedback)]).
  repeat split. now apply trim_not_empty.
Qed.

(** The three ways [analyzeFeedback] ends: stopped by the guard on the
    text, stopped by the guard on the credits, or settled on the outcome of
    the request it sent. *)
Lemma analyzeFeedback_cases (env : Env) (st : Client.State) (server : Store) :
  (Client.trim (Client.feedback st) = ""
   /\ Client.analyzeFeedback env st server
      = ({| Client.feedback := Client.feedback st;
            Client.isAnalyzing := Client.isAnalyzing st;
            Client.result := Client.result st;
            Client.credits := Client.credits st;
            Client.toasts := (Client.toasts st ++ [Client.EmptyFeedback])%list |},
         server))
  \/ (Client.trim (Client.feedback st) <> ""
      /\ Client.credits_used (Client.credits st)
         >= Client.max_credits (Client.credits st)
      /\ Client.analyzeFeedback env st server
         = ({| Client.feedback := Client.feedback st;
               Client.isAnalyzing := Client.isAnalyzing st;
               Client.result := Client.result st;
               Client.credits := Client.credits st;
               Client.toasts :=
                 (Client.toasts st ++ [Client.CreditLimitReached])%list |},
            server))
  \/ (Client.trim (Client.feedback st) <> ""
      /\ Client.credits_used (Client.credits st)
         < Client.max_credits (Client.credits st)
      /\ Client.analyzeFeedback env st server
         = (Client.settle st (fst (Client.invoke env (Client.feedback st) server)),
            snd (Client.invoke env (Client.feedback st) server))).
Proof.
  unfold Client.analyzeFeedback.
  destruct (String.eqb (Client.trim (Client.feedback st)) "") eqn:Et.
  - left. apply String.eqb_eq in Et. now split.
  - apply String.eqb_neq in Et. right.
    destruct (Client.credits_used (Client.credits st)
              >=? Client.max_credits (Client.credits st)) eqn:Ec.
    + left. repeat split; [exact Et | lia].
    + right. repeat split; [exact Et | lia |].
      now destruct (Client.invoke env (Client.feedback st) server).
Qed.

(** X17. No click on the page is answered with status 400.  Whatever the
    page holds and whatever the server does, [analyzeFeedback] either stops
    at one of its guards, showing "Empty feedback" or "Credit limit
    reached" and leaving the store alone, or it settles on the outcome of
    the request it sent, and the answer to that request has a status other
    than 400: the text it sends is one that [trim] does not empty. *)
Theorem page_never_refused_for_input
        (env : Env) (st : Client.State) (server : Store) :
  (exists toast,
      (toast = Client.EmptyFeedback \/ toast = Client.CreditLimitReached)
      /\ Client.analyzeFeedback env st server
         = ({| Client.feedback := Client.feedback st;
               Client.isAnalyzing := Client.isAnalyzing st;
               Client.result := Client.result st;
               Client.credits := Client.credits st;
               Client.toasts := (Client.toasts st ++ [toast])%list |},
            server))
  \/ (Client.analyzeFeedback env st server
      = (Client.settle st (fst (Client.invoke env (Client.feedback st) server)),
         snd (Client.invoke env (Client.feedback st) server))
      /\ status (response_of
                   (handler env (Client.invokeRequest (Client.feedback st)) server))
         <> 400).
Proof.
  destruct (analyzeFeedback_cases env st server)
    as [[_ E] | [[_ [_ E]] | [Htext [_ E]]]].
  - left. exists Client.EmptyFeedback. split; [now left | exact E].
  - left. exists Client.CreditLimitReached. split; [now right | exact E].
  - right. split; [exact E|].
    intros Hs. apply status_400_iff in Hs as [_ [parsed [Hb [_ Ht]]]].
    injection Hb as <-. cbn in Ht.
    apply trim_not_empty in Htext.
    rewrite (proj2 (String.eqb_neq _ _) Htext) in Ht. discriminate Ht.
Qed.

(** X18. When the button is enabled and the page's counter is not over its
    cap, [analyzeFeedback] passes both of its guards and sends the
    request. *)
Theorem enabled_button_sends (env : Env) (st : Client.State) (server : Store) :
  Client.buttonDisabled st = false ->
  Client.credits_used (Client.credits st) <= Client.max_credits (Client.credits st) ->
  Client.analyzeFeedback env st server
  = (Client.settle st (fst (Client.invoke env (Client.feedback st) server)),
     snd (Client.invoke env (Client.feedback st) server)).
Proof.
  unfold Client.buttonDisabled, Client.creditsRemaining, Client.analyzeFeedback.
  intros Hen Hle.
  apply orb_false_iff in Hen as [Hen Hzero].
  apply orb_false_iff in Hen as [_ Htext].
  rewrite Htext. apply Z.eqb_neq in Hzero.
  destruct (Client.credits_used (Client.credits st)
            >=? Client.max_credits (Client.credits st)) eqn:E; [lia|].
  now destruct (Client.invoke env (Client.feedback st) server).
Qed.

Lemma enabled_button_sends_witness :
  Client.toasts (fst (Client.analyzeFeedback healthy (freshPage "so good" 2 5)
                                             readyStore))
  = [Client.AnalysisComplete (Some positive) (Some 70)].
Proof.
  rewrite (enabled_button_sends healthy (freshPage "so good" 2 5) readyStore).
  - vm_compute; reflexivity.
  - vm_compute; reflexivity.
  - simpl; lia.
Defined.

(** X19. A page whose counter is over its cap still has its button
    enabled, since the button compares the remaining credits with 0 only;
    the click then shows "Credit limit reached" and sends nothing. *)
Theorem over_cap_button (env : Env) (st : Client.State) (server : Store) :
  Client.credits_used (Client.credits st) > Client.max_credits (Client.credits st) ->
  Client.isAnalyzing st = false ->
  Client.trim (Client.feedback st) <> "" ->
  Client.buttonDisabled st = false
  /\ Client.analyzeFeedback env st server
     = ({| Client.feedback := Client.feedback st;
           Client.isAnalyzing := false;
           Client.result := Client.result st;
           Client.credits := Client.credits st;
           Client.toasts := (Client.toasts st ++ [Client.CreditLimitReached])%list |},
        server).
Proof.
  intros Hover Hidle Htext.
  unfold Client.buttonDisabled, Client.creditsRemaining, Client.analyzeFeedback.
  rewrite Hidle, (proj2 (String.eqb_neq _ _) Htext). cbn [orb].
  split.
  - apply Z.eqb_neq. lia.
  - destruct (Client.credits_used (Client.credits st)
              >=? Client.max_credits (Client.credits st)) eqn:E; [reflexivity | lia].
Qed.

Lemma over_cap_button_witness :
  Client.buttonDisabled (freshPage "so good" 6 5) = false
  /\ Client.analyzeFeedback healthy (freshPage "so good" 6 5) readyStore
     = ({| Client.feedback := "so good";
           Client.isAnalyzing := false;
           Client.result := None;
           Client.credits := {| Client.credits_used := 6; Client.max_credits := 5 |};
           Client.toasts := ([] ++ [Client.CreditLimitReached])%list |},
        readyStore).
Proof.
  apply (over_cap_button healthy (freshPage "so good" 6 5) readyStore).
  - simpl; lia.
  - reflexivity.
  - discriminate.
Defined.

(** X20. A page that shows the counter of the server and sends a text,
    with a credit left and a store that reads the counter and takes the
    record: the text field is cleared, the result is the answer of the
    server, the remaining credits that the page computes are the ones the
    answer reports, and the page still shows the counter of the server
    exactly when the server's write of the counter went through. *)
Theorem page_after_success (env : Env) (st : Client.State) (server : Store) :
  inSync st server ->
  Client.trim (Client.feedback st) <> "" ->
  Client.credits_used (Client.credits st) < Client.max_credits (Client.credits st) ->
  storeAnswers env ->
  let text := Client.feedback st in
  let st' := fst (Client.analyzeFeedback env st server) in
  let server' := snd (Client.analyzeFeedback env st server) in
  Client.feedback st' = ""
  /\ Client.isAnalyzing st' = false
  /\ Client.result st'
     = Some (BodyJson
               (ResultObject (generated_id env)
                             (sentiment (analyzeSentiment text))
                             (confidence (analyzeSentiment text))
                             (Client.creditsRemaining st')))
  /\ feedback server' = (feedback server ++ [storedRow env text])%list
  /\ (inSync st' server' <-> update_credits_fails env = false).
Proof.
  intros [row [Hc Hpage]] Htext Hlt [Hs Hi]. cbv zeta.
  rewrite Hpage in Hlt. cbn [Client.credits_used Client.max_credits] in Hlt.
  assert (Hsel : creditsRead env server row) by (now apply creditsRead_inv).
  destruct (invokeRequest_carries _ Htext) as [Hm [parsed [Hb [Hf Hne]]]].
  unfold Client.analyzeFeedback, Client.invoke.
  rewrite (proj2 (String.eqb_neq _ _) Htext), Hpage.
  cbn [Client.credits_used Client.max_credits].
  destruct (credits_used row >=? max_credits row) eqn:E; [lia|].
  rewrite (handler_stored env _ server parsed row _ Hm Hb Hf Hne Hsel Hlt Hi).
  cbn [response_of store_of fst snd status resultResponse jsonResponse body
       Z.leb Z.compare Pos.compare Pos.compare_cont andb
       Client.settle Client.feedback Client.isAnalyzing Client.result feedback].
  unfold Client.creditsRemaining.
  cbn [Client.credits Client.credits_used Client.max_credits].
  rewrite Hpage. cbn [Client.credits_used Client.max_credits].
  split; [reflexivity|]. split; [reflexivity|].
  split; [do 3 f_equal; lia|]. split; [reflexivity|].
  unfold inSync. cbn [Client.credits credits]. split.
  - intros [row' [Hc' Hpage']].
    destruct (update_credits_fails env); [|reflexivity].
    injection Hc' as <-. injection Hpage' as Hused. lia.
  - intros ->. exists (incremented row). split; reflexivity.
Qed.

Lemma page_after_success_witness :
  Client.feedback (fst (Client.analyzeFeedback updateRefused (freshPage "so good" 2 5)
                                               readyStore))
  = ""
  /\ Client.credits (fst (Client.analyzeFeedback updateRefused (freshPage "so good" 2 5)
                                                 readyStore))
     = {| Client.credits_used := 3; Client.max_credits := 5 |}
  /\ credits (snd (Client.analyzeFeedback updateRefused (freshPage "so good" 2 5)
                                          readyStore))
     = [{| credits_id := "c-1"; credits_used := 2; max_credits := 5 |}].
Proof.
  destruct (page_after_success updateRefused (freshPage "so good" 2 5) readyStore)
    as [Hcleared _].
  - exists {| credits_id := "c-1"; credits_used := 2; max_credits := 5 |}.
    split; reflexivity.
  - discriminate.
  - simpl; lia.
  - split; reflexivity.
  - split; [exact Hcleared|]. split; vm_compute; reflexivity.
Defined.

(** X21. When the server refuses the request that the page sent, with
    whatever status, the page keeps the text and its counter, shows no
    result, is no longer analyzing, and adds one toast of failure with the
    message of the client library; the store is as the handler left it. *)
Theorem page_after_refusal (env : Env) (st : Client.State) (server : Store) :
  Client.trim (Client.feedback st) <> "" ->
  Client.credits_used (Client.credits st) < Client.max_credits (Client.credits st) ->
  status (response_of
            (handler env (Client.invokeRequest (Client.feedback st)) server))
  <> 200 ->
  Client.analyzeFeedback env st server
  = ({| Client.feedback := Client.feedback st;
        Client.isAnalyzing := false;
        Client.result := None;
        Client.credits := Client.credits st;
        Client.toasts :=
          (Client.toasts st
           ++ [Client.AnalysisFailed
                 "Edge Function returned a non-2xx status code"])%list |},
     store_of (handler env (Client.invokeRequest (Client.feedback st)) server)).
Proof.
  intros Htext Hcredit Hs.
  unfold Client.analyzeFeedback, Client.invoke.
  rewrite (proj2 (String.eqb_neq _ _) Htext).
  destruct (Client.credits_used (Client.credits st)
            >=? Client.max_credits (Client.credits st)) eqn:E; [lia|].
  pose proof (handler_handles env (Client.invokeRequest (Client.feedback st)) server)
    as H.
  handler_paths H; rewrite <- Heq in Hs; cbn in Hs; try (now contradiction Hs);
    reflexivity.
Qed.

Lemma page_after_refusal_witness :
  Client.analyzeFeedback healthy (freshPage "so good" 2 5) exhaustedStore
  = ({| Client.feedback := "so good";
        Client.isAnalyzing := false;
        Client.result := None;
        Client.credits := {| Client.credits_used := 2; Client.max_credits := 5 |};
        Client.toasts :=
          ([] ++ [Client.AnalysisFailed
                    "Edge Function returned a non-2xx status code"])%list |},
     exhaustedStore).
Proof.
  rewrite (page_after_refusal healthy (freshPage "so good" 2 5) exhaustedStore).
  - reflexivity.
  - discriminate.
  - simpl; lia.
  - vm_compute. discriminate.
Defined.

(** X22. The percentage that the page shows for an answer of the
    classifier, [Math.round(confidence * 100)], is 70, 80, 90 or 95. *)
Theorem shown_percent_values
        (text id : string) (remaining : Z) :
  let a := analyzeSentiment text in
  In (Client.percent (BodyJson (ResultObject id (sentiment a) (confidence a) remaining)))
     [Some 70; Some 80; Some 90; Some 95].
Proof.
  cbv zeta. unfold Client.percent. cbn [Client.dataConfidence].
  destruct (confidence_values text) as [_ [Hin _]].
  cbn [In] in Hin.
  destruct Hin as [<- | [<- | [<- | [<- | []]]]]; vm_compute; tauto.
Qed.

(** X23. The gate of the page and the gate of the server agree while the
    page shows the counter of the server and the counter can be read: on a
    text that [trim] does not empty, [analyzeFeedback] stops at its guard
    on the credits, showing "Credit limit reached" and sending nothing,
    exactly when the server would answer that text with 429. *)
Theorem page_gate_agrees (env : Env) (st : Client.State) (server : Store) :
  inSync st server ->
  Client.trim (Client.feedback st) <> "" ->
  select_credits_fails env = false ->
  (Client.analyzeFeedback env st server
   = ({| Client.feedback := Client.feedback st;
         Client.isAnalyzing := Client.isAnalyzing st;
         Client.result := Client.result st;
         Client.credits := Client.credits st;
         Client.toasts := (Client.toasts st ++ [Client.CreditLimitReached])%list |},
      server)
   <-> status (response_of
                 (handler env (Client.invokeRequest (Client.feedback st)) server))
       = 429).
Proof.
  intros [row [Hc Hpage]] Htext Hs.
  assert (Hsel : creditsRead env server row) by (now apply creditsRead_inv).
  destruct (invokeRequest_carries _ Htext) as [Hm [parsed [Hb [Hf Hne]]]].
  rewrite status_429_iff.
  destruct (analyzeFeedback_cases env st server)
    as [[Hblank _] | [[_ [Hge E]] | [_ [Hlt E]]]].
  - now contradiction Htext.
  - rewrite Hpage in Hge. cbn [Client.credits_used Client.max_credits] in Hge.
    split; [intros _ | intros _; exact E].
    split; [exact Hm|]. exists parsed, row.
    repeat split; try assumption;
      first [ exact (text_not_null _ _ Hf) | exact (text_truthy _ _ Hf Hne) | lia ].
  - rewrite Hpage in Hlt. cbn [Client.credits_used Client.max_credits] in Hlt.
    split.
    + intros Hstop. exfalso. rewrite E in Hstop.
      apply (f_equal (fun out => Client.toasts (fst out))) in Hstop.
      cbn [fst Client.toasts] in Hstop.
      destruct (fst (Client.invoke env (Client.feedback st) server));
        cbn [Client.settle Client.toasts] in Hstop;
        apply app_inv_head in Hstop; discriminate Hstop.
    + intros [_ [parsed' [row' [_ [_ [_ [Hsel' Hge]]]]]]].
      rewrite <- (creditsRead_functional _ _ _ _ Hsel Hsel') in Hge. lia.
Qed.

Lemma page_gate_agrees_witness :
  Client.analyzeFeedback healthy (freshPage "so good" 5 5) exhaustedStore
  = ({| Client.feedback := "so good";
        Client.isAnalyzing := false;
        Client.result := None;
        Client.credits := {| Client.credits_used := 5; Client.max_credits := 5 |};
        Client.toasts := ([] ++ [Client.CreditLimitReached])%list |},
      exhaustedStore)
  /\ status (response_of (handler healthy (Client.invokeRequest "so good")
                                  exhaustedStore))
     = 429.
Proof.
  assert (Hstatus : status (response_of (handler healthy
                                                 (Client.invokeRequest "so good")
                                                 exhaustedStore))
                    = 429) by (vm_compute; reflexivity).
  split; [|exact Hstatus].
  apply (page_gate_agrees healthy (freshPage "so good" 5 5) exhaustedStore);
    try exact Hstatus.
  - exists {| credits_id := "c-1"; credits_used := 5; max_credits := 5 |}.
    split; reflexivity.
  - discriminate.
  - reflexivity.
Defined.
